(** * Nuvoton UART ISP loader: a shallow embedding of [isp_loader.py]

    The Python class [ISPLoader] keeps its whole state in attributes of
    [self] and talks to the boot ROM through a [serial.Serial] object.
    Here the attributes become a record, every method becomes a
    computation in a state-and-exception monad over that record, and the
    serial port becomes a sub-record holding the configured timeout, the
    answers the device is going to give (one per read call) and the log of
    everything that crossed the wire. *)

From stdpp Require Import base list strings gmap.
From Stdlib Require Import ZArith Lia DecimalString.
From Stdlib.Strings Require Import Byte.

Local Open Scope Z_scope.

(** ** Python values used by the loader *)

(** A Python [bytes] object is a [list byte]; the list [self.isp_buffer]
    is a Python list of (unbounded) integers, hence a [list Z]. *)
Abbreviation bytes := (list byte).

(** A list of integers [bytes()] accepts. *)
Abbreviation is_bytes := (Forall (fun z : Z => 0 <= z < 256)).

Definition byte_val (b : byte) : Z := Z.of_N (Byte.to_N b).

Definition is_byte (z : Z) : bool := (0 <=? z) && (z <? 256).

Definition byte_of_Z (z : Z) : byte := default x00 (Byte.of_N (Z.to_N z)).

(** What a method hands back to its caller: [True], [False], or nothing at
    all (falling off the end of the function yields [None]). *)
Inductive pyret := PyTrue | PyFalse | PyNone.

(** Truth value of a returned object, as tested by [if f():]. *)
Definition truthy (r : pyret) : bool :=
  match r with PyTrue => true | _ => false end.

Definition of_bool (b : bool) : pyret := if b then PyTrue else PyFalse.

(** Values stored in the result dictionary of [main]. *)
Inductive pyval := VStr (s : string) | VInt (z : Z).

(** ** class ISPCommand *)

Module ISPCommand.
Definition CMD_UPDATE_APROM : Z := 0xA0.
Definition CMD_UPDATE_CONFIG : Z := 0xA1.
Definition CMD_READ_CONFIG : Z := 0xA2.
Definition CMD_ERASE_ALL : Z := 0xA3.
Definition CMD_SYNC_PACKNO : Z := 0xA4.
Definition CMD_GET_FWVER : Z := 0xA6.
Definition CMD_RUN_APROM : Z := 0xAB.
Definition CMD_RUN_LDROM : Z := 0xAC.
Definition CMD_RESET : Z := 0xAD.
Definition CMD_CONNECT : Z := 0xAE.
Definition CMD_DISCONNECT : Z := 0xAF.
Definition CMD_GET_DEVICEID : Z := 0xB1.
Definition CMD_UPDATE_DATAFLASH : Z := 0xC3.
Definition CMD_WRITE_CHECKSUM : Z := 0xC9.
Definition CMD_GET_FLASHMODE : Z := 0xCA.
Definition CMD_RESEND_PACKET : Z := 0xFF.
Definition BUFFER_LEN : Z := 64.
End ISPCommand.
Import ISPCommand.

(** ** The serial port *)

(** One entry of the wire log: a packet written, or a read together with
    the bytes it returned. *)
Inductive event :=
| EvWrite (data : bytes)
| EvReadline (resp : bytes)
| EvRead (size : Z) (resp : bytes).

(** [timeout] is kept in milliseconds (the script assigns 0.01, 0.5, 5 and
    10 seconds).  [rx] lists what the successive read calls will return;
    once it is exhausted the device is silent and every read times out
    with [b'']. *)
Record Serial := mkSerial {
  timeout : Z;
  rx : list bytes;
  log : list event
}.

(** ** class ISPLoader: the attributes of [self] *)

Record ISPLoader := mkISPLoader {
  isp_serial : Serial;
  isp_buffer : list Z;
  mcu_connect_status : bool;
  package_no : Z;
  firmware_version : Z;
  device_id : Z;
  config_0 : Z;
  config_1 : Z;
  start_byte_len : Z
}.

Definition set_isp_serial (v : Serial) (s : ISPLoader) : ISPLoader :=
  mkISPLoader v (isp_buffer s) (mcu_connect_status s) (package_no s)
    (firmware_version s) (device_id s) (config_0 s) (config_1 s)
    (start_byte_len s).
Definition set_isp_buffer (v : list Z) (s : ISPLoader) : ISPLoader :=
  mkISPLoader (isp_serial s) v (mcu_connect_status s) (package_no s)
    (firmware_version s) (device_id s) (config_0 s) (config_1 s)
    (start_byte_len s).
Definition set_mcu_connect_status (v : bool) (s : ISPLoader) : ISPLoader :=
  mkISPLoader (isp_serial s) (isp_buffer s) v (package_no s)
    (firmware_version s) (device_id s) (config_0 s) (config_1 s)
    (start_byte_len s).
Definition set_package_no (v : Z) (s : ISPLoader) : ISPLoader :=
  mkISPLoader (isp_serial s) (isp_buffer s) (mcu_connect_status s) v
    (firmware_version s) (device_id s) (config_0 s) (config_1 s)
    (start_byte_len s).
Definition set_firmware_version (v : Z) (s : ISPLoader) : ISPLoader :=
  mkISPLoader (isp_serial s) (isp_buffer s) (mcu_connect_status s)
    (package_no s) v (device_id s) (config_0 s) (config_1 s)
    (start_byte_len s).
Definition set_device_id (v : Z) (s : ISPLoader) : ISPLoader :=
  mkISPLoader (isp_serial s) (isp_buffer s) (mcu_connect_status s)
    (package_no s) (firmware_version s) v (config_0 s) (config_1 s)
    (start_byte_len s).
Definition set_config_0 (v : Z) (s : ISPLoader) : ISPLoader :=
  mkISPLoader (isp_serial s) (isp_buffer s) (mcu_connect_status s)
    (package_no s) (firmware_version s) (device_id s) v (config_1 s)
    (start_byte_len s).
Definition set_config_1 (v : Z) (s : ISPLoader) : ISPLoader :=
  mkISPLoader (isp_serial s) (isp_buffer s) (mcu_connect_status s)
    (package_no s) (firmware_version s) (device_id s) (config_0 s) v
    (start_byte_len s).
Definition set_start_byte_len (v : Z) (s : ISPLoader) : ISPLoader :=
  mkISPLoader (isp_serial s) (isp_buffer s) (mcu_connect_status s)
    (package_no s) (firmware_version s) (device_id s) (config_0 s)
    (config_1 s) v.

(** [ISPLoader.__init__]: the port is opened with a timeout of 0.5 s;
    [answers] is what the device will reply over the session.
    [start_byte_len] only comes into existence in [writeBinaryMCU], which
    assigns it before reading it. *)
Definition ISPLoader_init (answers : list bytes) : ISPLoader :=
  mkISPLoader (mkSerial 500 answers []) [] false 1 0 0 0 0 0.

(** ** The monad: state of [self], exceptions, and loops out of fuel *)

Inductive exn := IndexError | ValueError.

Inductive outcome (A : Type) :=
| Ret (a : A)
| Raise (e : exn)
| OutOfFuel.
Arguments Ret {A} a.
Arguments Raise {A} e.
Arguments OutOfFuel {A}.

Definition M (A : Type) : Type := ISPLoader -> outcome A * ISPLoader.

Definition ret {A} (a : A) : M A := fun s => (Ret a, s).

Definition bind {A B} (m : M A) (f : A -> M B) : M B := fun s =>
  match m s with
  | (Ret a, s') => f a s'
  | (Raise e, s') => (Raise e, s')
  | (OutOfFuel, s') => (OutOfFuel, s')
  end.

Definition raise {A} (e : exn) : M A := fun s => (Raise e, s).
Definition out_of_fuel {A} : M A := fun s => (OutOfFuel, s).
Definition gets {A} (f : ISPLoader -> A) : M A := fun s => (Ret (f s), s).
Definition modify (f : ISPLoader -> ISPLoader) : M unit :=
  fun s => (Ret tt, f s).

Declare Scope isp_scope.
Delimit Scope isp_scope with isp.
Notation "'let*' x := c1 'in' c2" := (bind c1 (fun x => c2))
  (at level 10, x name, c1 at level 100, c2 at level 200) : isp_scope.
Notation "'let*' ' p := c1 'in' c2" :=
  (bind c1 (fun x => match x with p => c2 end))
  (at level 10, p pattern, c1 at level 100, c2 at level 200) : isp_scope.
Notation "c1 >>> c2" := (bind c1 (fun _ => c2))
  (at level 100, c2 at level 200, right associativity) : isp_scope.
Local Open Scope isp_scope.

(** *** Primitive statements *)

(** [self.isp_buffer[i] = v]: an [IndexError] outside the list. *)
Definition buffer_set (i : nat) (v : Z) : M unit := fun s =>
  if (i <? length (isp_buffer s))%nat
  then (Ret tt, set_isp_buffer (<[i := v]> (isp_buffer s)) s)
  else (Raise IndexError, s).

(** [self.isp_buffer.append(v)] *)
Definition buffer_append (v : Z) : M unit :=
  modify (fun s => set_isp_buffer (isp_buffer s ++ [v]) s).

(** [resp[i]] on a [bytes] object. *)
Definition item (resp : bytes) (i : nat) : M Z :=
  match resp !! i with
  | Some b => ret (byte_val b)
  | None => raise IndexError
  end.

(** [bytes(l)]: a [ValueError] unless every element is in [range(256)]. *)
Definition to_bytes (l : list Z) : option bytes :=
  if forallb is_byte l then Some (map byte_of_Z l) else None.

(** [self.isp_serial.timeout = t] *)
Definition serial_set_timeout (t : Z) : M unit :=
  modify (fun s =>
    set_isp_serial (mkSerial t (rx (isp_serial s)) (log (isp_serial s))) s).

(** [self.isp_serial.write(bytes(self.isp_buffer))] *)
Definition serial_write_buffer : M unit := fun s =>
  match to_bytes (isp_buffer s) with
  | Some data =>
      let p := isp_serial s in
      (Ret tt, set_isp_serial
                 (mkSerial (timeout p) (rx p) (log p ++ [EvWrite data])) s)
  | None => (Raise ValueError, s)
  end.

(** The next answer of the device, and what is still to come after it. *)
Definition next_answer (p : Serial) : bytes := hd [] (rx p).

(** [self.isp_serial.readline()] *)
Definition serial_readline : M bytes := fun s =>
  let p := isp_serial s in
  let resp := next_answer p in
  (Ret resp, set_isp_serial
               (mkSerial (timeout p) (tl (rx p)) (log p ++ [EvReadline resp])) s).

(** [self.isp_serial.read(size)]: at most [size] bytes. *)
Definition serial_read (size : Z) : M bytes := fun s =>
  let p := isp_serial s in
  let resp := take (Z.to_nat size) (next_answer p) in
  (Ret resp, set_isp_serial
               (mkSerial (timeout p) (tl (rx p)) (log p ++ [EvRead size resp])) s).

(** ** Methods of ISPLoader *)

Definition updatePackageNumber : M unit :=
  let* pn := gets package_no in
  buffer_set 4 (Z.land pn 0xFF) >>>
  let* pn := gets package_no in
  buffer_set 5 (Z.land (Z.shiftr pn 8) 0xFF) >>>
  let* pn := gets package_no in
  buffer_set 6 (Z.land (Z.shiftr pn 16) 0xFF) >>>
  let* pn := gets package_no in
  buffer_set 7 (Z.land (Z.shiftr pn 24) 0xFF).

(** [clear()] followed by [length] appends of [0x00]. *)
Definition appendBufferEmptyValues (length : Z) : M unit :=
  modify (fun s => set_isp_buffer (replicate (Z.to_nat length) 0) s).

Definition bufferClear : M unit :=
  modify (fun s => set_isp_buffer (replicate (Z.to_nat BUFFER_LEN) 0) s).

(** The loop [for i in self.isp_buffer: checksum += i]. *)
Definition buffer_sum (l : list Z) : Z := fold_left Z.add l 0.

Definition calculateChecksum (resp : bytes) : M bool :=
  if (7 <? length resp)%nat then
    let* buf := gets isp_buffer in
    let checksum := buffer_sum buf in
    let* r0 := item resp 0 in
    let* r1 := item resp 1 in
    let package_checksum := Z.lor r0 (Z.shiftl r1 8) in
    let checksum := checksum mod 65536 in
    let stat := package_checksum =? checksum in
    if stat then
      let* r7 := item resp 7 in
      let* r6 := item resp 6 in
      let* r5 := item resp 5 in
      let* r4 := item resp 4 in
      let returnPackageNo :=
        Z.lor (Z.lor (Z.lor (Z.shiftl r7 24) (Z.shiftl r6 16)) (Z.shiftl r5 8)) r4 in
      let* pn := gets package_no in
      if negb (returnPackageNo =? pn + 1) then ret false else ret stat
    else ret stat
  else ret false.

(** The test [resp != b'' and resp is not None]; [readline] and [read]
    always return a [bytes] object, so only emptiness is left to test. *)
Definition nonempty (resp : bytes) : bool :=
  match resp with [] => false | _ :: _ => true end.

Definition connectMCU : M pyret :=
  let* connected := gets mcu_connect_status in
  (if negb connected then
     serial_set_timeout 10 >>>
     modify (set_package_no 1) >>>
     bufferClear >>>
     buffer_set 0 CMD_CONNECT >>>
     updatePackageNumber >>>
     serial_write_buffer >>>
     let* resp := serial_readline in
     if nonempty resp then
       let* ok := calculateChecksum resp in
       if ok then
         serial_set_timeout 500 >>>
         modify (set_mcu_connect_status true)
       else modify (set_mcu_connect_status false)
     else modify (set_mcu_connect_status false)
   else ret tt) >>>
  let* connected := gets mcu_connect_status in
  ret (of_bool connected).

(** [package_no += 2] *)
Definition advance_package_no : M unit :=
  modify (fun s => set_package_no (package_no s + 2) s).

(** [r[i] | (r[i+1] << 8) | (r[i+2] << 16) | (r[i+3] << 24)], the items
    being fetched from left to right. *)
Definition word_at (resp : bytes) (i : nat) : M Z :=
  let* b0 := item resp i in
  let* b1 := item resp (i + 1) in
  let* b2 := item resp (i + 2) in
  let* b3 := item resp (i + 3) in
  ret (Z.lor (Z.lor (Z.lor b0 (Z.shiftl b1 8)) (Z.shiftl b2 16)) (Z.shiftl b3 24)).

Definition readConfigMCU : M pyret :=
  let* connected := gets mcu_connect_status in
  if connected then
    bufferClear >>>
    buffer_set 0 CMD_READ_CONFIG >>>
    advance_package_no >>>
    updatePackageNumber >>>
    serial_write_buffer >>>
    let* resp := serial_readline in
    if nonempty resp then
      let* ok := calculateChecksum resp in
      if ok then
        let* c0 := word_at resp 8 in
        modify (set_config_0 c0) >>>
        let* c1 := word_at resp 12 in
        modify (set_config_1 c1) >>>
        ret PyTrue
      else ret PyNone
    else ret PyFalse
  else ret PyFalse.

Definition readDeviceIDMCU : M pyret :=
  let* connected := gets mcu_connect_status in
  if connected then
    bufferClear >>>
    buffer_set 0 CMD_GET_DEVICEID >>>
    advance_package_no >>>
    updatePackageNumber >>>
    serial_write_buffer >>>
    let* resp := serial_readline in
    if nonempty resp then
      let* ok := calculateChecksum resp in
      if ok then
        let* d := word_at resp 8 in
        modify (set_device_id d) >>>
        ret PyTrue
      else ret PyNone
    else ret PyFalse
  else ret PyFalse.

Definition readFirmwareVersionMCU : M pyret :=
  let* connected := gets mcu_connect_status in
  if connected then
    bufferClear >>>
    buffer_set 0 CMD_GET_FWVER >>>
    advance_package_no >>>
    updatePackageNumber >>>
    serial_write_buffer >>>
    let* resp := serial_readline in
    if nonempty resp then
      let* ok := calculateChecksum resp in
      if ok then
        let* v := item resp 8 in
        modify (set_firmware_version v) >>>
        ret PyTrue
      else ret PyNone
    else ret PyFalse
  else ret PyFalse.

Definition resetMCU : M pyret :=
  let* connected := gets mcu_connect_status in
  if connected then
    bufferClear >>>
    buffer_set 0 CMD_RESET >>>
    advance_package_no >>>
    updatePackageNumber >>>
    serial_write_buffer >>>
    let* resp := serial_readline in
    modify (set_mcu_connect_status false) >>>
    ret PyTrue
  else ret PyFalse.

Definition runAPROM : M pyret :=
  let* connected := gets mcu_connect_status in
  if connected then
    bufferClear >>>
    buffer_set 0 CMD_RUN_APROM >>>
    advance_package_no >>>
    updatePackageNumber >>>
    serial_write_buffer >>>
    let* resp := serial_readline in
    modify (set_mcu_connect_status false) >>>
    ret PyTrue
  else ret PyFalse.

Definition runLDROM : M pyret :=
  let* connected := gets mcu_connect_status in
  if connected then
    bufferClear >>>
    buffer_set 0 CMD_RUN_LDROM >>>
    advance_package_no >>>
    updatePackageNumber >>>
    serial_write_buffer >>>
    let* resp := serial_readline in
    modify (set_mcu_connect_status false) >>>
    ret PyTrue
  else ret PyFalse.

Definition syncMCU : M pyret :=
  let* connected := gets mcu_connect_status in
  if connected then
    bufferClear >>>
    buffer_set 0 CMD_SYNC_PACKNO >>>
    modify (set_package_no 1) >>>
    updatePackageNumber >>>
    let* pn := gets package_no in
    buffer_set 8 pn >>>
    let* pn := gets package_no in
    buffer_set 9 (Z.land (Z.shiftr pn 8) 0xFF) >>>
    let* pn := gets package_no in
    buffer_set 10 (Z.land (Z.shiftr pn 16) 0xFF) >>>
    let* pn := gets package_no in
    buffer_set 11 (Z.land (Z.shiftr pn 24) 0xFF) >>>
    serial_write_buffer >>>
    let* resp := serial_readline in
    if nonempty resp then
      let* ok := calculateChecksum resp in
      if ok then ret PyTrue else ret PyNone
    else ret PyFalse
  else ret PyFalse.

(** The hundred 5 ms sleeps under the progress bar after a good erase
    answer change nothing in [self]; they are left out. *)
Definition eraseAllMCU : M pyret :=
  let* connected := gets mcu_connect_status in
  if connected then
    serial_set_timeout 5000 >>>
    bufferClear >>>
    buffer_set 0 CMD_ERASE_ALL >>>
    advance_package_no >>>
    updatePackageNumber >>>
    serial_write_buffer >>>
    let* resp := serial_readline in
    if nonempty resp then
      let* ok := calculateChecksum resp in
      if ok then
        serial_set_timeout 500 >>>
        ret PyTrue
      else ret PyNone
    else ret PyFalse
  else ret PyFalse.

Definition writeDataToBuffer (file_len buffer_size address : Z) : M unit :=
  let* connected := gets mcu_connect_status in
  if connected then
    appendBufferEmptyValues buffer_size >>>
    advance_package_no >>>
    buffer_set 0 CMD_UPDATE_APROM >>>
    updatePackageNumber >>>
    buffer_set 8 (Z.land address 0xFF) >>>
    buffer_set 9 (Z.land (Z.shiftr address 8) 0xFF) >>>
    buffer_set 10 (Z.land (Z.shiftr address 16) 0xFF) >>>
    buffer_set 11 (Z.land (Z.shiftr address 24) 0xFF) >>>
    buffer_set 12 (Z.land file_len 0xFF) >>>
    buffer_set 13 (Z.land (Z.shiftr file_len 8) 0xFF) >>>
    buffer_set 14 (Z.land (Z.shiftr file_len 16) 0xFF) >>>
    buffer_set 15 (Z.land (Z.shiftr file_len 24) 0xFF)
  else ret tt.

(** [self.start_byte_len += 1] *)
Definition advance_start_byte_len : M unit :=
  modify (fun s => set_start_byte_len (start_byte_len s + 1) s).

(** The body of [for i in range(file_size)], run on [file_content[i]] for
    the successive [i]. *)
Definition program_byte (b : byte) : M unit :=
  let* sbl := gets start_byte_len in
  (if sbl mod BUFFER_LEN =? 0 then
     serial_write_buffer >>>
     let* resp := serial_read 64 in
     advance_package_no >>>
     appendBufferEmptyValues 8 >>>
     updatePackageNumber >>>
     modify (set_start_byte_len 8) >>>
     buffer_append (byte_val b)
   else buffer_append (byte_val b)) >>>
  advance_start_byte_len.

Fixpoint program_loop (file_content : bytes) : M unit :=
  match file_content with
  | [] => ret tt
  | b :: rest => program_byte b >>> program_loop rest
  end.

(** [while BUFFER_LEN - self.start_byte_len != 0: ...], at most [fuel]
    evaluations of its test. *)
Fixpoint pad_loop (fuel : nat) : M unit :=
  match fuel with
  | O => out_of_fuel
  | S fuel' =>
      let* sbl := gets start_byte_len in
      if negb (BUFFER_LEN - sbl =? 0) then
        buffer_append 0x00 >>>
        advance_start_byte_len >>>
        pad_loop fuel'
      else ret tt
  end.

(** [writeBinaryMCU] opens and reads the file first; the embedding starts
    from the bytes read, [file_content]. *)
Definition writeBinaryMCU (fuel : nat) (file_content : bytes) : M pyret :=
  bufferClear >>>
  let file_size := Z.of_nat (length file_content) in
  modify (set_isp_buffer []) >>>
  modify (set_start_byte_len 16) >>>
  writeDataToBuffer file_size 16 0x00 >>>
  serial_set_timeout 10000 >>>
  program_loop file_content >>>
  let* sbl := gets start_byte_len in
  if sbl >? 0 then
    pad_loop fuel >>>
    serial_write_buffer >>>
    let* resp := serial_read 64 in
    let* ok := calculateChecksum resp in
    if ok then ret PyTrue else ret PyFalse
  else ret PyNone.

(** ** The retry loops of [mcuLoadSoftware] and [main] *)

(** [str(n)] for an integer. *)
Definition str (n : Z) : string :=
  NilZero.string_of_int (Z.to_int n).

(** One pass through the body of the [while] of [mcuLoadSoftware], up to
    and excluding the final sleep and [timeout_counter += 10].  The result
    tells whether [break] was reached, and carries the local variables the
    body assigns. *)
Definition mcuLoadSoftware_body (fuel : nat) (binary_file : bytes)
    (reset_mcu_stat : bool) (erase_all_mcu_stat : bool)
    (return_dict : gmap string pyval)
  : M (bool * bool * gmap string pyval) :=
  let* c := connectMCU in
  if truthy c then
    let* y := syncMCU in
    if truthy y then
      let* ' (erase_all_mcu_stat, return_dict) :=
        (if erase_all_mcu_stat then
           let* e := eraseAllMCU in
           if truthy e
           then ret (false, <["Erase" := VStr "OK"]> return_dict)
           else ret (erase_all_mcu_stat,
                     <["Erase" := VStr "Checksum Error"]> return_dict)
         else ret (erase_all_mcu_stat, return_dict)) in
      let* y2 := syncMCU in
      if truthy y2 then
        let return_dict := <["Program" := VStr "OK"]> return_dict in
        writeBinaryMCU fuel binary_file >>>
        (if reset_mcu_stat then runAPROM >>> ret tt else ret tt) >>>
        let return_dict := <["Timeout" := VStr "Not Timeout"]> return_dict in
        ret (true, erase_all_mcu_stat, return_dict)
      else
        ret (false, erase_all_mcu_stat,
             <["Program" := VStr "Sync Error"]> return_dict)
    else ret (false, erase_all_mcu_stat, return_dict)
  else ret (false, erase_all_mcu_stat, return_dict).

(** [while timeout_counter < mcu_connection_timeout: ...]; the sleep of one
    millisecond between two passes has no effect on the state. *)
Fixpoint mcuLoadSoftware_loop (fuel : nat) (binary_file : bytes)
    (reset_mcu_stat : bool) (mcu_connection_timeout : Z)
    (erase_all_mcu_stat : bool) (timeout_counter : Z)
    (return_dict : gmap string pyval) : M (gmap string pyval) :=
  match fuel with
  | O => out_of_fuel
  | S fuel' =>
      if timeout_counter <? mcu_connection_timeout then
        let* ' (broke, erase_all_mcu_stat, return_dict) :=
          mcuLoadSoftware_body fuel binary_file reset_mcu_stat
            erase_all_mcu_stat return_dict in
        if (broke : bool) then ret return_dict
        else
          mcuLoadSoftware_loop fuel' binary_file reset_mcu_stat
            mcu_connection_timeout erase_all_mcu_stat (timeout_counter + 10)
            return_dict
      else ret return_dict
  end.

(** [mcuLoadSoftware]; [answers] is what the device behind [serial_port]
    is going to reply.  The result pairs the returned dictionary with the
    loader object as the function leaves it. *)
Definition mcuLoadSoftware (fuel : nat) (binary_file : bytes)
    (serial_port : string) (erase_all_mcu_stat reset_mcu_stat : bool)
    (mcu_connection_timeout : Z) (answers : list bytes)
  : outcome (gmap string pyval) * ISPLoader :=
  let return_dict : gmap string pyval :=
    <["Program" := VStr "Err"]> (<["Bin File" := VStr "Available"]> ∅) in
  let isp_loader := ISPLoader_init answers in
  let return_dict := <["Port" := VStr serial_port]> return_dict in
  let timeout_counter := 0 in
  let return_dict :=
    <["Timeout" := VStr (str mcu_connection_timeout)]> return_dict in
  mcuLoadSoftware_loop fuel binary_file reset_mcu_stat mcu_connection_timeout
    erase_all_mcu_stat timeout_counter return_dict isp_loader.

(** The [while] of [mcuLoadSoftware] with the passes counted on their own:
    [passes] bounds the evaluations of the loop test, and every pass hands
    the same [fuel] to its upload. *)
Fixpoint mcuLoadSoftware_passes (passes fuel : nat) (binary_file : bytes)
    (reset_mcu_stat : bool) (mcu_connection_timeout : Z)
    (erase_all_mcu_stat : bool) (timeout_counter : Z)
    (return_dict : gmap string pyval) : M (gmap string pyval) :=
  match passes with
  | O => out_of_fuel
  | S passes' =>
      if timeout_counter <? mcu_connection_timeout then
        let* ' (broke, erase_all_mcu_stat, return_dict) :=
          mcuLoadSoftware_body fuel binary_file reset_mcu_stat
            erase_all_mcu_stat return_dict in
        if (broke : bool) then ret return_dict
        else
          mcuLoadSoftware_passes passes' fuel binary_file reset_mcu_stat
            mcu_connection_timeout erase_all_mcu_stat (timeout_counter + 10)
            return_dict
      else ret return_dict
  end.

(** The command-line switches of [main] once [getopt] has been through
    them; [binary_file] stands for the contents of the file named by
    [--file]. *)
Record options := mkOptions {
  binary_file : bytes;
  serial_port : string;
  mcu_connection_timeout : Z;
  run_aprom_stat : bool;
  run_ldrom_stat : bool;
  reset_mcu_stat : bool;
  erase_all_mcu_stat : bool;
  read_config_stat : bool;
  read_device_id_stat : bool;
  read_firmware_no_stat : bool
}.

(** One pass through the body of the [while] of [main], up to and
    excluding the sleep and [timeout_counter += 10]: whether [break] was
    reached, the value of [timeout_counter], and the dictionary. *)
Definition main_body (fuel : nat) (o : options) (timeout_counter : Z)
    (return_dict : gmap string pyval)
  : M (bool * Z * gmap string pyval) :=
  let* c := connectMCU in
  if truthy c then
    let timeout_counter := 0 in
    let* y := syncMCU in
    if truthy y then
      let* return_dict :=
        (if read_firmware_no_stat o then
           let* r := readFirmwareVersionMCU in
           if truthy r then
             let* v := gets firmware_version in
             ret (<["Firmware No" := VInt v]> return_dict)
           else ret return_dict
         else ret return_dict) in
      let* return_dict :=
        (if read_device_id_stat o then
           let* r := readDeviceIDMCU in
           if truthy r then
             let* v := gets device_id in
             ret (<["Device ID" := VInt v]> return_dict)
           else ret return_dict
         else ret return_dict) in
      let* return_dict :=
        (if read_config_stat o then
           let* r := readConfigMCU in
           if truthy r then
             let* c0 := gets config_0 in
             let* c1 := gets config_1 in
             ret (<["Config 1" := VInt c1]>
                    (<["Config 0" := VInt c0]> return_dict))
           else ret return_dict
         else ret return_dict) in
      let* return_dict :=
        (if erase_all_mcu_stat o then
           let* e := eraseAllMCU in
           if truthy e
           then ret (<["Erase" := VStr "OK"]> return_dict)
           else ret (<["Erase" := VStr "Checksum Error"]> return_dict)
         else ret return_dict) in
      let* y2 := syncMCU in
      if truthy y2 then
        let return_dict := <["Program" := VStr "OK"]> return_dict in
        writeBinaryMCU fuel (binary_file o) >>>
        (if reset_mcu_stat o then resetMCU >>> ret tt
         else if run_aprom_stat o then runAPROM >>> ret tt
         else if run_ldrom_stat o then runLDROM >>> ret tt
         else ret tt) >>>
        let return_dict := <["Timeout" := VStr "Not Timeout"]> return_dict in
        ret (true, timeout_counter, return_dict)
      else
        ret (false, timeout_counter,
             <["Program" := VStr "Sync Error"]> return_dict)
    else ret (false, timeout_counter, return_dict)
  else ret (false, timeout_counter, return_dict).

Fixpoint main_loop (fuel : nat) (o : options) (timeout_counter : Z)
    (return_dict : gmap string pyval) : M (gmap string pyval) :=
  match fuel with
  | O => out_of_fuel
  | S fuel' =>
      if timeout_counter <? mcu_connection_timeout o then
        let* ' (broke, timeout_counter, return_dict) :=
          main_body fuel o timeout_counter return_dict in
        if (broke : bool) then ret return_dict
        else main_loop fuel' o (timeout_counter + 10) return_dict
      else ret return_dict
  end.

(** [main] from the point where both a file and a port were given: the
    loader is created, the dictionary initialised, and the loop entered. *)
Definition main (fuel : nat) (o : options) (answers : list bytes)
  : outcome (gmap string pyval) * ISPLoader :=
  let return_dict : gmap string pyval := <["Bin File" := VStr "Available"]> ∅ in
  let isp_loader := ISPLoader_init answers in
  let return_dict := <["Port" := VStr (serial_port o)]> return_dict in
  let timeout_counter := 0 in
  let return_dict := <["Timeout" := VStr "Timeout"]> return_dict in
  main_loop fuel o timeout_counter return_dict isp_loader.

(** ** Names for the command methods *)

Inductive command :=
| CmdConnect | CmdReadConfig | CmdReadDeviceID | CmdReadFirmwareVersion
| CmdReset | CmdRunAPROM | CmdRunLDROM | CmdSync | CmdEraseAll.

#[global] Instance command_eq_dec : EqDecision command.
Proof. solve_decision. Defined.

Definition run_command (c : command) : M pyret :=
  match c with
  | CmdConnect => connectMCU
  | CmdReadConfig => readConfigMCU
  | CmdReadDeviceID => readDeviceIDMCU
  | CmdReadFirmwareVersion => readFirmwareVersionMCU
  | CmdReset => resetMCU
  | CmdRunAPROM => runAPROM
  | CmdRunLDROM => runLDROM
  | CmdSync => syncMCU
  | CmdEraseAll => eraseAllMCU
  end.

(** The packets written to the port, oldest first. *)
Fixpoint packets (l : list event) : list bytes :=
  match l with
  | [] => []
  | EvWrite data :: l' => data :: packets l'
  | _ :: l' => packets l'
  end.

(** ** The fields of a response, as the protocol describes them *)

(** Sum of the elements of a packet buffer. *)
Definition sum_bytes (l : list Z) : Z := foldr Z.add 0 l.

(** Little-endian 16-bit value at bytes 0-1. *)
Definition response_checksum (resp : bytes) : Z :=
  byte_val (nth 0 resp x00) + 256 * byte_val (nth 1 resp x00).

(** Little-endian 32-bit value at bytes 4-7. *)
Definition response_sequence (resp : bytes) : Z :=
  byte_val (nth 4 resp x00) + 256 * byte_val (nth 5 resp x00)
  + 65536 * byte_val (nth 6 resp x00) + 16777216 * byte_val (nth 7 resp x00).

(** A response is accepted for the packet held in [buf] under sequence
    number [pn]. *)
Definition accepts (buf : list Z) (pn : Z) (resp : bytes) : bool :=
  (8 <=? length resp)%nat
  && (sum_bytes buf mod 65536 =? response_checksum resp)
  && (response_sequence resp =? pn + 1).

(** The commands that advance the sequence number by two: all but
    connect and sync. *)
Definition is_plain (c : command) : bool :=
  match c with CmdConnect | CmdSync => false | _ => true end.

(** The commands that read an answer and validate it. *)
Definition is_checked (c : command) : bool :=
  match c with
  | CmdConnect | CmdSync | CmdReadConfig | CmdReadDeviceID | CmdReadFirmwareVersion
  | CmdEraseAll => true
  | _ => false
  end.


(** The command, run from [s], wrote a packet and read zero bytes back. *)
Definition got_empty_response (c : command) (s : ISPLoader) : Prop :=
  exists pkt,
    log (isp_serial (snd (run_command c s)))
    = log (isp_serial s) ++ [EvWrite pkt; EvReadline []].

(** The packet of a plain command: the command code, the sequence number
    at bytes 4-7, zeroes elsewhere. *)
Definition request (cmd pn : Z) : list Z :=
  [cmd; 0; 0; 0; Z.land pn 0xFF; Z.land (Z.shiftr pn 8) 0xFF;
   Z.land (Z.shiftr pn 16) 0xFF; Z.land (Z.shiftr pn 24) 0xFF]
  ++ replicate 56 0.

(** The session once a plain command has advanced the sequence number,
    sent its packet and read the answer. *)
Definition transacted (cmd : Z) (s : ISPLoader) : ISPLoader :=
  mkISPLoader
    (mkSerial (timeout (isp_serial s)) (tl (rx (isp_serial s)))
       (log (isp_serial s)
        ++ [EvWrite (map byte_of_Z (request cmd (package_no s + 2)));
            EvReadline (next_answer (isp_serial s))]))
    (request cmd (package_no s + 2)) (mcu_connect_status s)
    (package_no s + 2) (firmware_version s) (device_id s) (config_0 s)
    (config_1 s) (start_byte_len s).

(** The packet of [syncMCU]: sequence number 1 at bytes 4-7 and again at
    bytes 8-11. *)
Definition sync_request : list Z :=
  [CMD_SYNC_PACKNO; 0; 0; 0; 1; 0; 0; 0; 1; 0; 0; 0] ++ replicate 52 0.

(** The session once [syncMCU] has sent its packet and read the answer. *)
Definition synced (s : ISPLoader) : ISPLoader :=
  mkISPLoader
    (mkSerial (timeout (isp_serial s)) (tl (rx (isp_serial s)))
       (log (isp_serial s)
        ++ [EvWrite (map byte_of_Z sync_request);
            EvReadline (next_answer (isp_serial s))]))
    sync_request (mcu_connect_status s) 1 (firmware_version s) (device_id s)
    (config_0 s) (config_1 s) (start_byte_len s).

(** The session once [connectMCU] has sent its packet and read the answer,
    with the connection status [st] it then assigns and the timeout [t] it
    leaves. *)
Definition connect_attempted (t : Z) (st : bool) (s : ISPLoader) : ISPLoader :=
  mkISPLoader
    (mkSerial t (tl (rx (isp_serial s)))
       (log (isp_serial s)
        ++ [EvWrite (map byte_of_Z (request CMD_CONNECT 1));
            EvReadline (next_answer (isp_serial s))]))
    (request CMD_CONNECT 1) st 1 (firmware_version s) (device_id s)
    (config_0 s) (config_1 s) (start_byte_len s).

(** The command code each method puts at byte 0. *)
Definition command_code (c : command) : Z :=
  match c with
  | CmdConnect => CMD_CONNECT
  | CmdReadConfig => CMD_READ_CONFIG
  | CmdReadDeviceID => CMD_GET_DEVICEID
  | CmdReadFirmwareVersion => CMD_GET_FWVER
  | CmdReset => CMD_RESET
  | CmdRunAPROM => CMD_RUN_APROM
  | CmdRunLDROM => CMD_RUN_LDROM
  | CmdSync => CMD_SYNC_PACKNO
  | CmdEraseAll => CMD_ERASE_ALL
  end.

(** Reset, run-APROM and run-LDROM. *)
Definition leaves_isp (c : command) : bool :=
  match c with CmdReset | CmdRunAPROM | CmdRunLDROM => true | _ => false end.

(** *** A sample dialogue

    Answers a boot ROM gives to connect, sync, get-firmware-version,
    get-device-id, read-config and erase-all, in this order: checksum of
    the request at bytes 0-1, sequence number plus one at bytes 4-7, then
    the data. *)
Definition ans_connect : bytes := map byte_of_Z [175; 0; 0; 0; 2; 0; 0; 0].
Definition ans_sync : bytes := map byte_of_Z [166; 0; 0; 0; 2; 0; 0; 0].
Definition ans_fwver : bytes :=
  map byte_of_Z [169; 0; 0; 0; 4; 0; 0; 0; 0x21].
Definition ans_devid : bytes :=
  map byte_of_Z [182; 0; 0; 0; 6; 0; 0; 0; 0x00; 0x5A; 0x00; 0xDA].
Definition ans_config : bytes :=
  map byte_of_Z
    [169; 0; 0; 0; 8; 0; 0; 0; 0xFF; 0xFF; 0xFF; 0xFE; 0xFF; 0xFF; 0xFF; 0xFF].
Definition ans_erase : bytes := map byte_of_Z [172; 0; 0; 0; 10; 0; 0; 0].

(** A session that has connected and synced, with the four remaining
    answers still to come. *)
Definition synced_session : ISPLoader :=
  snd (syncMCU (snd (connectMCU
    (ISPLoader_init
       [ans_connect; ans_sync; ans_fwver; ans_devid; ans_config; ans_erase])))).

(** A connected session, sequence number 4711, facing a silent device. *)
Definition silent_session : ISPLoader :=
  set_package_no 4711 (set_mcu_connect_status true (ISPLoader_init [])).

(** *** The upload, frame by frame *)

(** [ceil(a / b)] for a positive [b]. *)
Definition ceil_div (a b : Z) : Z := (a + b - 1) / b.

(** The eight bytes every later frame of an upload starts with: no command
    code, the sequence number at bytes 4-7. *)
Definition frame_header (pn : Z) : list Z :=
  [0; 0; 0; 0; Z.land pn 0xFF; Z.land (Z.shiftr pn 8) 0xFF;
   Z.land (Z.shiftr pn 16) 0xFF; Z.land (Z.shiftr pn 24) 0xFF].

(** The sixteen bytes the first frame starts with: update-APROM, the
    sequence number, the start address 0 and the length of the image. *)
Definition upload_header (pn file_len : Z) : list Z :=
  [CMD_UPDATE_APROM; 0; 0; 0; Z.land pn 0xFF; Z.land (Z.shiftr pn 8) 0xFF;
   Z.land (Z.shiftr pn 16) 0xFF; Z.land (Z.shiftr pn 24) 0xFF;
   0; 0; 0; 0; Z.land file_len 0xFF; Z.land (Z.shiftr file_len 8) 0xFF;
   Z.land (Z.shiftr file_len 16) 0xFF; Z.land (Z.shiftr file_len 24) 0xFF].

(** The session as [writeBinaryMCU] has it when it enters its [for] loop:
    on line, the header is in the buffer and the sequence number has
    advanced; off line, [writeDataToBuffer] did nothing and the buffer is
    empty.  [start_byte_len] is 16 either way. *)
Definition upload_start (file_len : Z) (s : ISPLoader) : ISPLoader :=
  mkISPLoader
    (mkSerial 10000 (rx (isp_serial s)) (log (isp_serial s)))
    (if mcu_connect_status s
     then upload_header (package_no s + 2) file_len else [])
    (mcu_connect_status s)
    (if mcu_connect_status s then package_no s + 2 else package_no s)
    (firmware_version s) (device_id s) (config_0 s) (config_1 s) 16.

(** The effect of one pass of the [for] loop on a byte [b]: a full buffer
    is sent, an answer of at most 64 bytes read and dropped, the sequence
    number advanced and a fresh frame started; then [b] is appended. *)
Definition program_step (b : byte) (s : ISPLoader) : ISPLoader :=
  if start_byte_len s =? 64 then
    mkISPLoader
      (mkSerial (timeout (isp_serial s)) (tl (rx (isp_serial s)))
         (log (isp_serial s)
          ++ [EvWrite (map byte_of_Z (isp_buffer s));
              EvRead 64 (take 64 (next_answer (isp_serial s)))]))
      (frame_header (package_no s + 2) ++ [byte_val b])
      (mcu_connect_status s) (package_no s + 2) (firmware_version s)
      (device_id s) (config_0 s) (config_1 s) 9
  else
    set_start_byte_len (start_byte_len s + 1)
      (set_isp_buffer (isp_buffer s ++ [byte_val b]) s).

(** The session as [writeBinaryMCU] leaves it, from the session [s] at
    the end of its [for] loop: the buffer padded with zeroes up to a fill
    count of 64, sent, and an answer of at most 64 bytes read. *)
Definition upload_end (s : ISPLoader) : ISPLoader :=
  mkISPLoader
    (mkSerial (timeout (isp_serial s)) (tl (rx (isp_serial s)))
       (log (isp_serial s)
        ++ [EvWrite
              (map byte_of_Z
                 (isp_buffer s
                  ++ replicate (Z.to_nat (64 - start_byte_len s)) 0));
            EvRead 64 (take 64 (next_answer (isp_serial s)))]))
    (isp_buffer s ++ replicate (Z.to_nat (64 - start_byte_len s)) 0)
    (mcu_connect_status s) (package_no s) (firmware_version s) (device_id s)
    (config_0 s) (config_1 s) 64.

(** A connected session with an empty log, facing a silent device. *)
Definition upload_session : ISPLoader :=
  set_mcu_connect_status true (ISPLoader_init []).

(** The switches of a plain [-f firmware.bin -p COM1] run: default
    timeout of 1000, nothing else asked for. *)
Definition default_options : options :=
  mkOptions [x01; x02; x03] "COM1" 1000 false false false false false false
    false.

(** *** Little-endian fields *)

(** The 32-bit little-endian value held at positions [i .. i+3] of a packet
    buffer. *)
Definition buffer_word (l : list Z) (i : nat) : Z :=
  nth i l 0 + 256 * nth (i + 1) l 0 + 65536 * nth (i + 2) l 0
  + 16777216 * nth (i + 3) l 0.

(** The 32-bit little-endian value held at bytes [i .. i+3] of a response. *)
Definition response_word (resp : bytes) (i : nat) : Z :=
  byte_val (nth i resp x00) + 256 * byte_val (nth (i + 1) resp x00)
  + 65536 * byte_val (nth (i + 2) resp x00)
  + 16777216 * byte_val (nth (i + 3) resp x00).

(** A connected session at sequence number 1 whose device will give the
    listed answers. *)
Definition session_with (answers : list bytes) : ISPLoader :=
  set_mcu_connect_status true (ISPLoader_init answers).

(** The sixteen bytes [writeDataToBuffer] builds: update-APROM, the
    sequence number, the address and the length, each little-endian. *)
Definition data_header (pn address file_len : Z) : list Z :=
  [CMD_UPDATE_APROM; 0; 0; 0; Z.land pn 0xFF; Z.land (Z.shiftr pn 8) 0xFF;
   Z.land (Z.shiftr pn 16) 0xFF; Z.land (Z.shiftr pn 24) 0xFF;
   Z.land address 0xFF; Z.land (Z.shiftr address 8) 0xFF;
   Z.land (Z.shiftr address 16) 0xFF; Z.land (Z.shiftr address 24) 0xFF;
   Z.land file_len 0xFF; Z.land (Z.shiftr file_len 8) 0xFF;
   Z.land (Z.shiftr file_len 16) 0xFF; Z.land (Z.shiftr file_len 24) 0xFF].

(** The image bytes carried by the frames of an upload: the first frame
    without its [h] header bytes, every later frame without its 8. *)
Fixpoint frames_data (h : nat) (ps : list bytes) : bytes :=
  match ps with
  | [] => []
  | p :: ps' => drop h p ++ frames_data 8 ps'
  end.

(** What one failed connection attempt on a silent device leaves in the
    log: the connect packet, and a read that timed out. *)
Definition silent_attempt : list event :=
  [EvWrite (map byte_of_Z (request CMD_CONNECT 1)); EvReadline []].

(** The frames of an upload after the first, [k] of them: each is the
    8-byte header carrying its sequence number (no command code), then the
    next 56 bytes of [data]; the last one is zero-padded. *)
Fixpoint later_frames (k : nat) (pn : Z) (data : bytes) : list bytes :=
  match k with
  | O => []
  | S k' =>
      (map byte_of_Z (frame_header pn) ++ take 56 data
       ++ replicate (56 - length data) x00)
      :: later_frames k' (pn + 2) (drop 56 data)
  end.

(** The frames of an upload of [file_content] on a connected session at
    sequence number [pn]: the 16-byte header with the first 48 image bytes
    (zero-padded when the image is shorter), then one frame for every
    further 56 bytes, the sequence number advancing by 2 from frame to
    frame. *)
Definition upload_frames (pn : Z) (file_content : bytes) : list bytes :=
  (map byte_of_Z (upload_header (pn + 2) (Z.of_nat (length file_content)))
   ++ take 48 file_content ++ replicate (48 - length file_content) x00)
  :: later_frames
       (Z.to_nat (ceil_div (Z.of_nat (length file_content) - 48) 56))
       (pn + 4) (drop 48 file_content).

(** * Proofs *)

(** ** Bytes and bit operations *)

Lemma byte_val_range b : 0 <= byte_val b < 256.
Proof.
  unfold byte_val. pose proof (Byte.to_N_bounded b). lia.
Qed.

Lemma land_low_high n lo hi :
  0 <= n -> 0 <= lo < 2 ^ n -> Z.land lo (hi * 2 ^ n) = 0.
Proof.
  intros Hn Hlo. apply Z.bits_inj'. intros m Hm.
  rewrite Z.land_spec, Z.bits_0.
  destruct (decide (m < n)) as [Hlt|Hge].
  - rewrite Z.mul_pow2_bits_low by lia. apply andb_false_r.
  - destruct (decide (lo = 0)) as [->|Hne].
    + rewrite Z.bits_0. reflexivity.
    + rewrite (Z.bits_above_log2 lo m); [reflexivity|lia|].
      apply Z.log2_lt_pow2; [lia|].
      apply Z.lt_le_trans with (2 ^ n); [lia|].
      apply Z.pow_le_mono_r; lia.
Qed.

Lemma lor_low_high n lo hi :
  0 <= n -> 0 <= lo < 2 ^ n -> Z.lor lo (hi * 2 ^ n) = lo + hi * 2 ^ n.
Proof.
  intros Hn Hlo.
  rewrite <- Z.lxor_lor by (apply land_low_high; assumption).
  symmetry. apply Z.add_nocarry_lxor. apply land_low_high; assumption.
Qed.

(** [b0 | (b1 << 8)] on two bytes. *)
Lemma lor16 b0 b1 :
  0 <= b0 < 256 ->
  Z.lor b0 (Z.shiftl b1 8) = b0 + 256 * b1.
Proof.
  intros H0. rewrite Z.shiftl_mul_pow2 by lia.
  rewrite (lor_low_high 8) by lia. lia.
Qed.

(** [(b7 << 24) | (b6 << 16) | (b5 << 8) | b4] on four bytes. *)
Lemma lor32_be b4 b5 b6 b7 :
  0 <= b4 < 256 -> 0 <= b5 < 256 -> 0 <= b6 < 256 ->
  Z.lor (Z.lor (Z.lor (Z.shiftl b7 24) (Z.shiftl b6 16)) (Z.shiftl b5 8)) b4
  = b4 + 256 * b5 + 65536 * b6 + 16777216 * b7.
Proof.
  intros H4 H5 H6. rewrite !Z.shiftl_mul_pow2 by lia.
  rewrite (Z.lor_comm (b7 * 2 ^ 24)).
  rewrite (lor_low_high 24) by lia.
  rewrite (Z.lor_comm _ (b5 * 2 ^ 8)).
  replace (b6 * 2 ^ 16 + b7 * 2 ^ 24)
    with ((b6 + b7 * 2 ^ 8) * 2 ^ 16) by lia.
  rewrite (lor_low_high 16) by lia.
  rewrite Z.lor_comm.
  replace (b5 * 2 ^ 8 + (b6 + b7 * 2 ^ 8) * 2 ^ 16)
    with ((b5 + b6 * 2 ^ 8 + b7 * 2 ^ 16) * 2 ^ 8) by lia.
  rewrite (lor_low_high 8) by lia. lia.
Qed.

Lemma land_255_range x : 0 <= Z.land x 0xFF < 256.
Proof.
  change 255 with (Z.ones 8). rewrite Z.land_ones by lia.
  apply Z.mod_pos_bound. lia.
Qed.

Lemma is_byte_spec z : is_byte z = true <-> 0 <= z < 256.
Proof. unfold is_byte. rewrite andb_true_iff, Z.leb_le, Z.ltb_lt. tauto. Qed.

Lemma to_bytes_Some l :
  Forall (fun z => 0 <= z < 256) l -> to_bytes l = Some (map byte_of_Z l).
Proof.
  intros H. unfold to_bytes.
  replace (forallb is_byte l) with true; [reflexivity|].
  symmetry. apply forallb_forall. intros z Hz.
  apply is_byte_spec. rewrite Forall_forall in H. apply H.
  apply list_elem_of_In. exact Hz.
Qed.

Lemma buffer_sum_foldr l : buffer_sum l = sum_bytes l.
Proof.
  unfold buffer_sum, sum_bytes.
  assert (H : forall a, fold_left Z.add l a = a + foldr Z.add 0 l).
  { induction l as [|x l IH]; intros a; simpl; [lia|]. rewrite IH. lia. }
  rewrite H. lia.
Qed.

(** ** The checksum test *)

Lemma calculateChecksum_run resp s :
  calculateChecksum resp s
  = (Ret (accepts (isp_buffer s) (package_no s) resp), s).
Proof.
  unfold calculateChecksum, accepts.
  destruct resp as [|r0 [|r1 [|r2 [|r3 [|r4 [|r5 [|r6 [|r7 rest]]]]]]]];
    try reflexivity.
  change (7 <? length (r0 :: r1 :: r2 :: r3 :: r4 :: r5 :: r6 :: r7 :: rest))%nat
    with true.
  change (8 <=? length (r0 :: r1 :: r2 :: r3 :: r4 :: r5 :: r6 :: r7 :: rest))%nat
    with true.
  unfold response_checksum, response_sequence, bind, gets, item, ret; cbn.
  pose proof (byte_val_range r0). pose proof (byte_val_range r4).
  pose proof (byte_val_range r5). pose proof (byte_val_range r6).
  rewrite lor16, lor32_be, buffer_sum_foldr by assumption.
  rewrite (Z.eqb_sym (byte_val r0 + 256 * byte_val r1)).
  destruct (sum_bytes (isp_buffer s) mod 65536 =? _); [|reflexivity].
  cbn. destruct (_ =? package_no s + 1); reflexivity.
Qed.

Lemma accepts_true_iff buf pn resp :
  accepts buf pn resp = true <->
  (8 <= length resp)%nat /\
  sum_bytes buf mod 65536 = response_checksum resp /\
  response_sequence resp = pn + 1.
Proof.
  unfold accepts. rewrite !andb_true_iff, Nat.leb_le, !Z.eqb_eq. tauto.
Qed.

(** C1: [calculateChecksum] returns [True] exactly when the response has
    at least 8 bytes, the sum of the bytes of the packet buffer modulo
    65536 equals the little-endian 16-bit value at response bytes 0-1, and
    the little-endian 32-bit value at response bytes 4-7 equals the
    sequence number plus 1; it returns [False] on every response shorter
    than 8 bytes; and it always returns, leaving the session as it was. *)
Theorem calculateChecksum_iff (s : ISPLoader) (resp : bytes) :
  (calculateChecksum resp s = (Ret true, s) <->
     (8 <= length resp)%nat /\
     sum_bytes (isp_buffer s) mod 65536 = response_checksum resp /\
     response_sequence resp = package_no s + 1)
  /\ ((length resp < 8)%nat -> calculateChecksum resp s = (Ret false, s))
  /\ (exists b : bool, calculateChecksum resp s = (Ret b, s)).
Proof.
  rewrite calculateChecksum_run. split; [|split].
  - rewrite <- accepts_true_iff. split.
    + intros H. injection H as H. exact H.
    + intros H. rewrite H. reflexivity.
  - intros H. unfold accepts. apply Nat.leb_gt in H. rewrite H. reflexivity.
  - eexists. reflexivity.
Qed.

(** A witness for [calculateChecksum_iff]: the answer [af 00 00 00 02 00 00
    00] to the connect packet, and the same answer cut to seven bytes. *)
Lemma calculateChecksum_iff_witness :
  calculateChecksum
    (map byte_of_Z [175; 0; 0; 0; 2; 0; 0; 0])
    (set_isp_buffer (174 :: 0 :: 0 :: 0 :: 1 :: replicate 59 0) (ISPLoader_init []))
  = (Ret true,
     set_isp_buffer (174 :: 0 :: 0 :: 0 :: 1 :: replicate 59 0) (ISPLoader_init []))
  /\ calculateChecksum
       (map byte_of_Z [175; 0; 0; 0; 2; 0; 0])
       (set_isp_buffer (174 :: 0 :: 0 :: 0 :: 1 :: replicate 59 0) (ISPLoader_init []))
     = (Ret false,
        set_isp_buffer (174 :: 0 :: 0 :: 0 :: 1 :: replicate 59 0) (ISPLoader_init [])).
Proof.
  split.
  - apply (proj1 (calculateChecksum_iff _ _)). vm_compute. auto.
  - apply (proj1 (proj2 (calculateChecksum_iff _ _))). vm_compute. lia.
Defined.
Arguments to_bytes : simpl never.
Arguments calculateChecksum : simpl never.

(** ** Running the monad step by step *)

Lemma bind_gets {A B} (f : ISPLoader -> A) (k : A -> M B) s :
  bind (gets f) k s = k (f s) s.
Proof. reflexivity. Qed.

Lemma bind_modify {B} (f : ISPLoader -> ISPLoader) (k : unit -> M B) s :
  bind (modify f) k s = k tt (f s).
Proof. reflexivity. Qed.

Lemma bind_ret {A B} (a : A) (k : A -> M B) s : bind (ret a) k s = k a s.
Proof. reflexivity. Qed.

Lemma bind_assoc {A B C} (m : M A) (f : A -> M B) (g : B -> M C) s :
  bind (bind m f) g s = bind m (fun x => bind (f x) g) s.
Proof. unfold bind. destruct (m s) as [[a| |] s1]; reflexivity. Qed.

Lemma bind_buffer_set {B} i v (k : unit -> M B) s :
  (i < length (isp_buffer s))%nat ->
  bind (buffer_set i v) k s
  = k tt (set_isp_buffer (<[i := v]> (isp_buffer s)) s).
Proof.
  intros H. unfold bind, buffer_set.
  apply Nat.ltb_lt in H. rewrite H. reflexivity.
Qed.

Lemma bind_serial_write {B} (k : unit -> M B) s :
  Forall (fun z => 0 <= z < 256) (isp_buffer s) ->
  bind serial_write_buffer k s
  = k tt (set_isp_serial
            (mkSerial (timeout (isp_serial s)) (rx (isp_serial s))
               (log (isp_serial s) ++ [EvWrite (map byte_of_Z (isp_buffer s))]))
            s).
Proof.
  intros H. unfold bind, serial_write_buffer.
  rewrite to_bytes_Some by assumption. reflexivity.
Qed.

Lemma bind_serial_readline {B} (k : bytes -> M B) s :
  bind serial_readline k s
  = k (next_answer (isp_serial s))
      (set_isp_serial
         (mkSerial (timeout (isp_serial s)) (tl (rx (isp_serial s)))
            (log (isp_serial s) ++ [EvReadline (next_answer (isp_serial s))]))
         s).
Proof. reflexivity. Qed.

Lemma bind_calculateChecksum {B} resp (k : bool -> M B) s :
  bind (calculateChecksum resp) k s
  = k (accepts (isp_buffer s) (package_no s) resp) s.
Proof. unfold bind. rewrite calculateChecksum_run. reflexivity. Qed.

Ltac bytes_ok :=
  repeat first
    [ apply Forall_nil_2
    | apply Forall_cons_2;
      [first [ apply land_255_range | lia | vm_compute; intuition congruence ]|] ].

Lemma request_bytes cmd pn :
  0 <= cmd < 256 -> Forall (fun z => 0 <= z < 256) (request cmd pn).
Proof. intros H. unfold request. cbn. bytes_ok. Qed.

Ltac proj :=
  cbn [isp_serial isp_buffer mcu_connect_status package_no firmware_version
       device_id config_0 config_1 start_byte_len timeout rx log
       set_isp_serial set_isp_buffer set_mcu_connect_status set_package_no
       set_firmware_version set_device_id set_config_0 set_config_1
       set_start_byte_len].

Ltac len_ok :=
  proj; rewrite ?length_insert, ?length_replicate, ?length_app;
  unfold BUFFER_LEN; cbn [length]; lia.

Ltac mstep :=
  first
    [ rewrite bind_assoc
    | rewrite bind_gets
    | rewrite bind_modify
    | rewrite bind_ret
    | rewrite bind_buffer_set by len_ok
    | rewrite bind_serial_readline
    | rewrite bind_calculateChecksum ];
  proj.

Lemma bind_updatePackageNumber {B} (k : unit -> M B) s :
  (8 <= length (isp_buffer s))%nat ->
  bind updatePackageNumber k s
  = k tt (set_isp_buffer
            (<[7%nat := Z.land (Z.shiftr (package_no s) 24) 0xFF]>
               (<[6%nat := Z.land (Z.shiftr (package_no s) 16) 0xFF]>
                  (<[5%nat := Z.land (Z.shiftr (package_no s) 8) 0xFF]>
                     (<[4%nat := Z.land (package_no s) 0xFF]> (isp_buffer s)))))
            s).
Proof.
  intros H. unfold updatePackageNumber. repeat mstep.
  reflexivity.
Qed.

Lemma transaction_run {B} cmd (k : bytes -> M B) s :
  0 <= cmd < 256 ->
  bind bufferClear (fun _ =>
  bind (buffer_set 0 cmd) (fun _ =>
  bind advance_package_no (fun _ =>
  bind updatePackageNumber (fun _ =>
  bind serial_write_buffer (fun _ =>
  bind serial_readline k))))) s
  = k (next_answer (isp_serial s)) (transacted cmd s).
Proof.
  intros Hcmd. unfold bufferClear, advance_package_no.
  do 3 mstep. rewrite bind_updatePackageNumber by len_ok. proj.
  change (Z.to_nat BUFFER_LEN) with 64%nat. cbn [replicate].
  rewrite bind_serial_write by (proj; apply (request_bytes cmd); assumption).
  mstep. unfold transacted. rewrite <- app_assoc. reflexivity.
Qed.

Lemma item_cases resp i s :
  (exists v, item resp i s = (Ret v, s)) \/ item resp i s = (Raise IndexError, s).
Proof.
  unfold item. destruct (resp !! i); [left; eexists|right]; reflexivity.
Qed.

Lemma word_at_cases resp i s :
  (exists v, word_at resp i s = (Ret v, s)) \/ word_at resp i s = (Raise IndexError, s).
Proof.
  unfold word_at, bind.
  destruct (item_cases resp i s) as [[v0 ->]| ->]; [|right; reflexivity].
  destruct (item_cases resp (i + 1) s) as [[v1 ->]| ->]; [|right; reflexivity].
  destruct (item_cases resp (i + 2) s) as [[v2 ->]| ->]; [|right; reflexivity].
  destruct (item_cases resp (i + 3) s) as [[v3 ->]| ->]; [|right; reflexivity].
  left. eexists. reflexivity.
Qed.

Lemma bind_run {A B} (m : M A) (k : A -> M B) s a s1 :
  m s = (Ret a, s1) -> bind m k s = k a s1.
Proof. intros H. unfold bind. rewrite H. reflexivity. Qed.

Lemma bind_raise {A B} (m : M A) (k : A -> M B) s e s1 :
  m s = (Raise e, s1) -> bind m k s = (Raise e, s1).
Proof. intros H. unfold bind. rewrite H. reflexivity. Qed.


(** ** The commands on a connected session *)

Ltac read_cases :=
  match goal with
  | |- context [bind (word_at ?r ?i) ?k ?st] =>
      let H := fresh "Hread" in
      destruct (word_at_cases r i st) as [[? H]|H];
      [rewrite (bind_run _ _ _ _ _ H)|rewrite (bind_raise _ _ _ _ _ H)]
  | |- context [bind (item ?r ?i) ?k ?st] =>
      let H := fresh "Hread" in
      destruct (item_cases r i st) as [[? H]|H];
      [rewrite (bind_run _ _ _ _ _ H)|rewrite (bind_raise _ _ _ _ _ H)]
  end.

Ltac open_plain Hc :=
  cbn [run_command];
  unfold readConfigMCU, readDeviceIDMCU, readFirmwareVersionMCU, resetMCU,
    runAPROM, runLDROM, eraseAllMCU, serial_set_timeout;
  rewrite bind_gets, Hc; try rewrite bind_modify;
  rewrite transaction_run by (vm_compute; intuition congruence).

Lemma syncMCU_connected s :
  mcu_connect_status s = true ->
  syncMCU s
  = if nonempty (next_answer (isp_serial s)) then
      if accepts sync_request 1 (next_answer (isp_serial s))
      then (Ret PyTrue, synced s) else (Ret PyNone, synced s)
    else (Ret PyFalse, synced s).
Proof.
  intros Hc. unfold syncMCU, bufferClear.
  rewrite bind_gets, Hc. do 3 mstep.
  rewrite bind_updatePackageNumber by len_ok. proj.
  do 8 mstep.
  change (Z.to_nat BUFFER_LEN) with 64%nat. cbn [replicate].
  rewrite bind_serial_write by (proj; cbn; bytes_ok).
  mstep. rewrite <- app_assoc.
  unfold next_answer at 1 2. proj. fold (next_answer (isp_serial s)).
  destruct (nonempty _); [|reflexivity].
  rewrite bind_calculateChecksum. proj.
  change (accepts _ 1 ?r) with (accepts sync_request 1 r).
  destruct (accepts _ _ _); reflexivity.
Qed.

Lemma connectMCU_disconnected s :
  mcu_connect_status s = false ->
  connectMCU s
  = if nonempty (next_answer (isp_serial s))
       && accepts (request CMD_CONNECT 1) 1 (next_answer (isp_serial s))
    then (Ret PyTrue, connect_attempted 500 true s)
    else (Ret PyFalse, connect_attempted 10 false s).
Proof.
  intros Hc. unfold connectMCU, bufferClear, serial_set_timeout.
  mstep. rewrite Hc. cbn [negb]. repeat mstep.
  rewrite bind_updatePackageNumber by len_ok. proj.
  change (Z.to_nat BUFFER_LEN) with 64%nat. cbn [replicate].
  mstep.
  rewrite bind_serial_write
    by (proj; apply (request_bytes CMD_CONNECT); vm_compute; intuition congruence).
  repeat mstep. rewrite <- app_assoc.
  unfold next_answer at 1 2. proj. fold (next_answer (isp_serial s)).
  destruct (nonempty _); cbn [andb].
  - repeat mstep.
    change (accepts _ 1 ?r) with (accepts (request CMD_CONNECT 1) 1 r).
    destruct (accepts _ _ _); repeat mstep; reflexivity.
  - repeat mstep. reflexivity.
Qed.

Lemma connectMCU_connected s :
  mcu_connect_status s = true -> connectMCU s = (Ret PyTrue, s).
Proof.
  intros Hc. unfold connectMCU.
  mstep. rewrite Hc. cbn [negb]. repeat mstep. rewrite Hc. reflexivity.
Qed.

(** Off line, every command but connect answers [False] at once and
    leaves the session, port included, as it was. *)
Lemma command_disconnected c s :
  c <> CmdConnect -> mcu_connect_status s = false ->
  run_command c s = (Ret PyFalse, s).
Proof.
  intros Hn Hc. destruct c; try congruence; cbn [run_command];
    unfold readConfigMCU, readDeviceIDMCU, readFirmwareVersionMCU, resetMCU,
      runAPROM, runLDROM, syncMCU, eraseAllMCU;
    rewrite bind_gets, Hc; reflexivity.
Qed.

Lemma request_length cmd pn : length (request cmd pn) = 64%nat.
Proof. reflexivity. Qed.

(** What a plain command leaves behind on a connected session, whatever
    the answer: the sequence number advanced by two, its packet in the
    buffer, and one write and one read on the wire. *)
Lemma plain_command_effects c s :
  is_plain c = true -> mcu_connect_status s = true ->
  package_no (snd (run_command c s)) = package_no s + 2
  /\ isp_buffer (snd (run_command c s))
     = request (command_code c) (package_no s + 2)
  /\ log (isp_serial (snd (run_command c s)))
     = log (isp_serial s)
       ++ [EvWrite (map byte_of_Z (request (command_code c) (package_no s + 2)));
           EvReadline (next_answer (isp_serial s))].
Proof.
  intros Hp Hc.
  destruct c; try discriminate Hp; open_plain Hc;
    try (destruct (nonempty _); [|repeat split];
         rewrite bind_calculateChecksum; destruct (accepts _ _ _); [|repeat split]);
    repeat (read_cases; [try mstep|repeat split]);
    repeat split.
Qed.

(** The three outcomes of a validated plain command on a connected
    session. *)
Lemma checked_command_result c s :
  is_plain c = true -> is_checked c = true -> mcu_connect_status s = true ->
  let resp := next_answer (isp_serial s) in
  (nonempty resp = false ->
     exists s', run_command c s = (Ret PyFalse, s')
       /\ device_id s' = device_id s
       /\ firmware_version s' = firmware_version s
       /\ config_0 s' = config_0 s /\ config_1 s' = config_1 s)
  /\ (nonempty resp = true ->
      accepts (request (command_code c) (package_no s + 2)) (package_no s + 2) resp
        = false ->
      fst (run_command c s) = Ret PyNone).
Proof.
  intros Hp Hk Hc resp. subst resp.
  destruct c; try discriminate Hp; try discriminate Hk; open_plain Hc.
  all: unfold next_answer; proj.
  all: split;
    [ intros Hne; rewrite Hne; eexists; repeat split
    | intros Hne Hacc; rewrite Hne, bind_calculateChecksum;
      change (accepts (isp_buffer (transacted ?k ?t)) _ ?r)
        with (accepts (request k (package_no t + 2)) (package_no t + 2) r);
      proj; unfold command_code in Hacc; rewrite Hacc; reflexivity ].
Qed.

(** ** Sequence numbers *)




(** C5: on a connected session, whatever the sequence number was, sync
    returns with the sequence number set to 1. *)
Theorem sync_resets_sequence (s : ISPLoader) :
  mcu_connect_status s = true ->
  exists r s', syncMCU s = (Ret r, s') /\ package_no s' = 1.
Proof.
  intros Hc. rewrite (syncMCU_connected s Hc).
  destruct (nonempty _); [destruct (accepts _ _ _)|];
    do 2 eexists; split; reflexivity.
Qed.

(** Witness for [sync_resets_sequence]: a session at sequence number
    4711. *)
Lemma sync_resets_sequence_witness :
  package_no silent_session = 4711
  /\ exists r s', syncMCU silent_session = (Ret r, s') /\ package_no s' = 1.
Proof.
  split; [reflexivity|].
  apply (sync_resets_sequence silent_session). reflexivity.
Defined.

(** ** Leaving the protocol mode *)

(** C9: on a connected session, reset, run-APROM and run-LDROM send their
    packet, read whatever comes back, set the connection status to false,
    and return [True]. *)
Theorem leave_commands_disconnect (c : command) (s : ISPLoader) :
  leaves_isp c = true ->
  mcu_connect_status s = true ->
  exists s',
    run_command c s = (Ret PyTrue, s')
    /\ mcu_connect_status s' = false
    /\ log (isp_serial s')
       = log (isp_serial s)
         ++ [EvWrite (map byte_of_Z (request (command_code c) (package_no s + 2)));
             EvReadline (next_answer (isp_serial s))].
Proof.
  intros Hl Hc.
  destruct c; try discriminate Hl; open_plain Hc;
    eexists; repeat split.
Qed.

(** Witness for [leave_commands_disconnect]: reset after the sample
    dialogue has connected and synced; the answer read back is the one
    meant for another command, hence invalid. *)
Lemma leave_commands_disconnect_witness :
  exists s',
    run_command CmdReset synced_session = (Ret PyTrue, s')
    /\ mcu_connect_status s' = false
    /\ log (isp_serial s')
       = log (isp_serial synced_session)
         ++ [EvWrite (map byte_of_Z (request (command_code CmdReset)
                                       (package_no synced_session + 2)));
             EvReadline (next_answer (isp_serial synced_session))].
Proof.
  apply (leave_commands_disconnect CmdReset synced_session); reflexivity.
Defined.

(** ** Empty and invalid responses *)

Lemma log_tail_inv (l : list event) pkt pkt' resp resp' :
  l ++ [EvWrite pkt; EvReadline resp] = l ++ [EvWrite pkt'; EvReadline resp'] ->
  resp = resp'.
Proof.
  intros H. apply app_inv_head in H. injection H as _ H. exact H.
Qed.

Lemma log_no_growth (l : list event) a b : l <> l ++ [a; b].
Proof.
  intros H. apply (f_equal length) in H. rewrite length_app in H.
  cbn in H. lia.
Qed.

Lemma nonempty_nil_iff resp : nonempty resp = false <-> resp = [].
Proof. destruct resp; cbn; split; congruence. Qed.

(** C8: whenever connect, sync, read-config, read-device-id,
    read-firmware-version or erase-all writes its packet and reads zero
    bytes back, it returns [False] without raising, and the stored device
    id, firmware version and config words are what they were; after
    connect the connection status is false. *)
Theorem empty_response_fails (c : command) (s : ISPLoader) :
  is_checked c = true ->
  got_empty_response c s ->
  exists s',
    run_command c s = (Ret PyFalse, s')
    /\ device_id s' = device_id s
    /\ firmware_version s' = firmware_version s
    /\ config_0 s' = config_0 s
    /\ config_1 s' = config_1 s
    /\ (c = CmdConnect -> mcu_connect_status s' = false).
Proof.
  intros Hk [pkt Hlog].
  destruct (mcu_connect_status s) eqn:Hst.
  - destruct (decide (c = CmdConnect)) as [->|Hnc];
      [|destruct (decide (c = CmdSync)) as [->|Hns]].
    + cbn [run_command] in Hlog. rewrite (connectMCU_connected s Hst) in Hlog.
      cbn [snd] in Hlog. exfalso. exact (log_no_growth _ _ _ Hlog).
    + cbn [run_command] in *. rewrite (syncMCU_connected s Hst) in *.
      assert (Hresp : next_answer (isp_serial s) = []).
      { destruct (nonempty _); [destruct (accepts _ _ _)|];
          cbn [snd] in Hlog; exact (log_tail_inv _ _ _ _ _ Hlog). }
      rewrite Hresp. cbn [nonempty]. eexists. repeat split. discriminate.
    + assert (Hp : is_plain c = true) by (destruct c; cbn in *; congruence).
      destruct (plain_command_effects c s Hp Hst) as (_ & _ & Hlog').
      rewrite Hlog' in Hlog. apply log_tail_inv in Hlog.
      apply nonempty_nil_iff in Hlog.
      destruct (checked_command_result c s Hp Hk Hst) as [Hres _].
      destruct (Hres Hlog) as (s' & Hrun & H1 & H2 & H3 & H4).
      exists s'. repeat split; try assumption. intros ->. contradiction.
  - destruct (decide (c = CmdConnect)) as [->|Hnc].
    + cbn [run_command] in *. rewrite (connectMCU_disconnected s Hst) in *.
      assert (Hresp : next_answer (isp_serial s) = []).
      { destruct (_ && _); cbn [snd] in Hlog;
          exact (log_tail_inv _ _ _ _ _ Hlog). }
      rewrite Hresp. cbn [nonempty andb]. eexists. repeat split.
    + rewrite (command_disconnected c s Hnc Hst).
      exists s. repeat split. intros ->. contradiction.
Qed.

(** Witness for [empty_response_fails]: connecting to a silent device. *)
Lemma empty_response_fails_witness :
  exists s',
    run_command CmdConnect (ISPLoader_init []) = (Ret PyFalse, s')
    /\ device_id s' = device_id (ISPLoader_init [])
    /\ firmware_version s' = firmware_version (ISPLoader_init [])
    /\ config_0 s' = config_0 (ISPLoader_init [])
    /\ config_1 s' = config_1 (ISPLoader_init [])
    /\ (CmdConnect = CmdConnect -> mcu_connect_status s' = false).
Proof.
  apply (empty_response_fails CmdConnect (ISPLoader_init [])).
  - reflexivity.
  - eexists. vm_compute. reflexivity.
Defined.

(** C10: for read-config, read-device-id, read-firmware-version, sync and
    erase-all on a connected session, a non-empty answer that
    [calculateChecksum] rejects makes the method return [None]; with an
    empty answer, or off line, the same method returns [False]. *)
Theorem invalid_response_returns_None (c : command) :
  is_checked c = true ->
  c <> CmdConnect ->
  (forall s,
     mcu_connect_status s = true ->
     nonempty (next_answer (isp_serial s)) = true ->
     fst (calculateChecksum (next_answer (isp_serial s))
            (snd (run_command c s))) = Ret false ->
     fst (run_command c s) = Ret PyNone)
  /\ (forall s,
        mcu_connect_status s = true ->
        next_answer (isp_serial s) = [] ->
        fst (run_command c s) = Ret PyFalse)
  /\ (forall s,
        mcu_connect_status s = false ->
        fst (run_command c s) = Ret PyFalse).
Proof.
  intros Hk Hnc. split; [|split].
  - intros s Hst Hne Hbad. rewrite calculateChecksum_run in Hbad.
    cbn [fst] in Hbad. injection Hbad as Hbad.
    destruct (decide (c = CmdSync)) as [->|Hns].
    + cbn [run_command] in *. rewrite (syncMCU_connected s Hst) in *.
      rewrite Hne in *.
      destruct (accepts sync_request 1 _) eqn:Hacc; [|reflexivity].
      cbn [snd] in Hbad. change (accepts _ _ ?r) with (accepts sync_request 1 r) in Hbad.
      congruence.
    + assert (Hp : is_plain c = true) by (destruct c; cbn in *; congruence).
      destruct (plain_command_effects c s Hp Hst) as (Hpn & Hbuf & _).
      rewrite Hpn, Hbuf in Hbad.
      destruct (checked_command_result c s Hp Hk Hst) as [_ Hres].
      exact (Hres Hne Hbad).
  - intros s Hst Hresp.
    destruct (decide (c = CmdSync)) as [->|Hns].
    + cbn [run_command]. rewrite (syncMCU_connected s Hst), Hresp. reflexivity.
    + assert (Hp : is_plain c = true) by (destruct c; cbn in *; congruence).
      destruct (checked_command_result c s Hp Hk Hst) as [Hres _].
      apply nonempty_nil_iff in Hresp.
      destruct (Hres Hresp) as (s' & -> & _). reflexivity.
  - intros s Hst. rewrite (command_disconnected c s Hnc Hst). reflexivity.
Qed.

(** Witness for [invalid_response_returns_None]: read-device-id answered
    with the reply meant for get-firmware-version, then facing a silent
    device, then off line. *)
Lemma invalid_response_returns_None_witness :
  fst (run_command CmdReadDeviceID synced_session) = Ret PyNone
  /\ fst (run_command CmdReadDeviceID silent_session) = Ret PyFalse
  /\ fst (run_command CmdReadDeviceID (ISPLoader_init [])) = Ret PyFalse.
Proof.
  destruct (invalid_response_returns_None CmdReadDeviceID) as (H1 & H2 & H3);
    [reflexivity|discriminate|].
  split; [|split].
  - apply H1; vm_compute; reflexivity.
  - apply H2; reflexivity.
  - apply H3; reflexivity.
Defined.

(** ** The upload *)

Lemma packets_app l1 l2 : packets (l1 ++ l2) = packets l1 ++ packets l2.
Proof.
  induction l1 as [|e l1 IH]; [reflexivity|].
  destruct e; cbn; rewrite IH; reflexivity.
Qed.

Lemma byte_of_Z_val b : byte_of_Z (byte_val b) = b.
Proof.
  unfold byte_of_Z, byte_val. rewrite N2Z.id, Byte.of_to_N. reflexivity.
Qed.

Lemma map_byte_of_Z_val (l : bytes) : map byte_of_Z (map byte_val l) = l.
Proof.
  induction l as [|b l IH]; [reflexivity|].
  cbn [map]. rewrite byte_of_Z_val, IH. reflexivity.
Qed.

Lemma map_byte_of_Z_zeros n : map byte_of_Z (replicate n 0) = replicate n x00.
Proof. induction n as [|n IH]; [reflexivity|]. cbn. rewrite IH. reflexivity. Qed.

Lemma is_bytes_val (l : bytes) : is_bytes (map byte_val l).
Proof.
  induction l as [|b l IH]; constructor; [apply byte_val_range|exact IH].
Qed.

Lemma is_bytes_zeros n : is_bytes (replicate n 0).
Proof. induction n; constructor; [lia|assumption]. Qed.

Lemma frame_header_bytes pn : is_bytes (frame_header pn).
Proof. unfold frame_header. bytes_ok. Qed.

Lemma upload_header_bytes pn n : is_bytes (upload_header pn n).
Proof. unfold upload_header. bytes_ok. Qed.

Lemma writeBinaryMCU_start fuel file_content s :
  writeBinaryMCU fuel file_content s
  = bind (program_loop file_content) (fun _ =>
      bind (gets start_byte_len) (fun sbl =>
        if sbl >? 0 then
          bind (pad_loop fuel) (fun _ =>
          bind serial_write_buffer (fun _ =>
          bind (serial_read 64) (fun resp =>
          bind (calculateChecksum resp) (fun ok =>
            if ok then ret PyTrue else ret PyFalse))))
        else ret PyNone))
      (upload_start (Z.of_nat (length file_content)) s).
Proof.
  unfold writeBinaryMCU, bufferClear, writeDataToBuffer,
    appendBufferEmptyValues, advance_package_no, serial_set_timeout.
  do 5 mstep.
  destruct s as [p buf [] pn fv di c0 c1 sbl]; proj.
  - do 6 mstep. change (Z.to_nat 16) with 16%nat. cbn [replicate].
    rewrite bind_assoc. rewrite bind_updatePackageNumber by len_ok. proj.
    repeat mstep. reflexivity.
  - repeat mstep. reflexivity.
Qed.

Lemma bind_serial_read {B} size (k : bytes -> M B) s :
  bind (serial_read size) k s
  = k (take (Z.to_nat size) (next_answer (isp_serial s)))
      (set_isp_serial
         (mkSerial (timeout (isp_serial s)) (tl (rx (isp_serial s)))
            (log (isp_serial s)
             ++ [EvRead size (take (Z.to_nat size) (next_answer (isp_serial s)))]))
         s).
Proof. reflexivity. Qed.

(** One pass of the [for] loop, on a buffer that holds bytes and a fill
    count between 1 and 64, is [program_step]. *)
Lemma program_byte_run b s :
  1 <= start_byte_len s <= 64 ->
  is_bytes (isp_buffer s) ->
  program_byte b s = (Ret tt, program_step b s).
Proof.
  intros Hsbl Hbytes. unfold program_byte, program_step.
  rewrite bind_gets. unfold BUFFER_LEN.
  destruct (Z.eqb_spec (start_byte_len s) 64) as [Heq|Hne].
  - rewrite Heq. change (64 mod 64 =? 0) with true. cbv iota.
    unfold advance_package_no, appendBufferEmptyValues, buffer_append,
      advance_start_byte_len.
    mstep. rewrite bind_serial_write by assumption. proj.
    mstep. rewrite bind_serial_read. proj.
    do 4 mstep.
    change (Z.to_nat 8) with 8%nat. cbn [replicate].
    mstep. rewrite bind_updatePackageNumber by len_ok. proj.
    repeat mstep.
    unfold modify. proj. rewrite <- app_assoc. reflexivity.
  - rewrite Z.mod_small by lia.
    destruct (Z.eqb_spec (start_byte_len s) 0) as [H0|_]; [lia|].
    unfold buffer_append, advance_start_byte_len. reflexivity.
Qed.

(** The padding loop appends the zeroes that bring the fill count to 64. *)
Lemma pad_loop_run fuel : forall s,
  start_byte_len s <= 64 ->
  (Z.to_nat (64 - start_byte_len s) < fuel)%nat ->
  pad_loop fuel s
  = (Ret tt,
     set_start_byte_len 64
       (set_isp_buffer
          (isp_buffer s ++ replicate (Z.to_nat (64 - start_byte_len s)) 0) s)).
Proof.
  induction fuel as [|fuel IH]; intros s Hle Hfuel; [lia|].
  cbn [pad_loop]. rewrite bind_gets. unfold BUFFER_LEN.
  destruct (Z.eqb_spec (64 - start_byte_len s) 0) as [H0|Hne]; cbn [negb].
  - rewrite H0. cbn [Z.to_nat replicate]. rewrite app_nil_r.
    replace 64 with (start_byte_len s) by lia.
    destruct s; reflexivity.
  - unfold buffer_append, advance_start_byte_len. do 2 mstep.
    rewrite IH by (proj; lia). proj.
    replace (Z.to_nat (64 - start_byte_len s))
      with (S (Z.to_nat (64 - (start_byte_len s + 1)))) by lia.
    cbn [replicate]. rewrite <- app_assoc. reflexivity.
Qed.

Lemma program_step_facts b s :
  9 <= start_byte_len s <= 64 ->
  is_bytes (isp_buffer s) ->
  exists ev,
    log (isp_serial (program_step b s)) = log (isp_serial s) ++ ev
    /\ 9 <= start_byte_len (program_step b s) <= 64
    /\ is_bytes (isp_buffer (program_step b s))
    /\ mcu_connect_status (program_step b s) = mcu_connect_status s
    /\ ((ev = []
         /\ start_byte_len (program_step b s) = start_byte_len s + 1
         /\ isp_buffer (program_step b s) = isp_buffer s ++ [byte_val b])
        \/ (exists resp,
              ev = [EvWrite (map byte_of_Z (isp_buffer s)); EvRead 64 resp]
              /\ start_byte_len s = 64
              /\ start_byte_len (program_step b s) = 9
              /\ isp_buffer (program_step b s)
                 = frame_header (package_no s + 2) ++ [byte_val b])).
Proof.
  intros Hsbl Hbytes. unfold program_step.
  destruct (Z.eqb_spec (start_byte_len s) 64) as [Heq|Hne].
  - eexists. proj. split; [reflexivity|].
    split; [lia|]. split.
    { apply Forall_app. split; [apply frame_header_bytes|].
      constructor; [apply byte_val_range|constructor]. }
    split; [reflexivity|]. right. eexists. repeat split. exact Heq.
  - exists []. proj. rewrite app_nil_r. split; [reflexivity|].
    split; [lia|]. split.
    { apply Forall_app. split; [assumption|].
      constructor; [apply byte_val_range|constructor]. }
    split; [reflexivity|]. left. repeat split.
Qed.

(** The [for] loop over the bytes [rest] of the image: it returns, every
    56 bytes past the first frame cost one packet, the fill count stays
    between 9 and 64, and the buffer ends with the bytes not yet sent. *)
Lemma program_loop_spec rest : forall s,
  9 <= start_byte_len s <= 64 ->
  is_bytes (isp_buffer s) ->
  exists s' new,
    program_loop rest s = (Ret tt, s')
    /\ log (isp_serial s') = log (isp_serial s) ++ new
    /\ 56 * Z.of_nat (length (packets new)) + start_byte_len s'
       = start_byte_len s + Z.of_nat (length rest)
    /\ 9 <= start_byte_len s' <= 64
    /\ is_bytes (isp_buffer s')
    /\ mcu_connect_status s' = mcu_connect_status s
    /\ (Z.of_nat (length (isp_buffer s)) = start_byte_len s ->
        Z.of_nat (length (isp_buffer s')) = start_byte_len s'
        /\ Forall (fun p : bytes => length p = 64%nat) (packets new))
    /\ ((packets new = [] /\ isp_buffer s' = isp_buffer s ++ map byte_val rest)
        \/ (packets new <> [] /\ exists hdr pre chunk,
              rest = pre ++ chunk /\ length hdr = 8%nat
              /\ isp_buffer s' = hdr ++ map byte_val chunk)).
Proof.
  induction rest as [|b rest IH]; intros s Hsbl Hbytes.
  - exists s, []. cbn [program_loop length packets map].
    rewrite !app_nil_r.
    split; [reflexivity|]. split; [reflexivity|]. split; [lia|].
    split; [assumption|]. split; [assumption|]. split; [reflexivity|].
    split; [intros Hl; split; [exact Hl|constructor]|].
    left. split; reflexivity.
  - cbn [program_loop]. rewrite (bind_run _ _ _ _ _ (program_byte_run b s ltac:(lia) Hbytes)).
    destruct (program_step_facts b s Hsbl Hbytes)
      as (ev & Hlog1 & Hsbl1 & Hbytes1 & Hst1 & Hcase).
    destruct (IH (program_step b s) Hsbl1 Hbytes1)
      as (s' & new & Hrun & Hlog & Hcount & Hsbl' & Hbytes' & Hst' & Hlen & Hcont).
    exists s', (ev ++ new).
    split; [exact Hrun|].
    split; [rewrite Hlog, Hlog1, app_assoc; reflexivity|].
    rewrite packets_app, length_app. cbn [length].
    destruct Hcase as [(-> & Hs1 & Hb1)|(resp & -> & Hs64 & Hs1 & Hb1)];
      cbn [packets app length].
    + split; [lia|]. split; [assumption|]. split; [assumption|].
      split; [congruence|]. split.
      * intros Hl. apply Hlen. rewrite Hb1, Hs1, length_app. cbn [length]. lia.
      * destruct Hcont as [[Hp Hbuf]|(Hp & hdr & pre & chunk & Hr & Hh & Hbuf)].
        -- left. split; [exact Hp|].
           rewrite Hbuf, Hb1, <- app_assoc. reflexivity.
        -- right. split; [exact Hp|]. exists hdr, (b :: pre), chunk.
           rewrite Hr. repeat split; assumption.
    + split; [lia|]. split; [assumption|]. split; [assumption|].
      split; [congruence|]. split.
      * intros Hl.
        destruct Hlen as [Hl' Hall].
        { rewrite Hb1, Hs1, length_app. reflexivity. }
        split; [exact Hl'|]. constructor; [|exact Hall].
        rewrite length_map. lia.
      * right. split; [discriminate|].
        destruct Hcont as [[Hp Hbuf]|(Hp & hdr & pre & chunk & Hr & Hh & Hbuf)].
        -- exists (frame_header (package_no s + 2)), [], (b :: rest).
           repeat split. rewrite Hbuf, Hb1, <- app_assoc. reflexivity.
        -- exists hdr, (b :: pre), chunk. rewrite Hr. repeat split; assumption.
Qed.

(** [writeBinaryMCU] in one piece: the loop, then the padded last frame,
    then the verdict of [calculateChecksum] on the answer to it. *)
Lemma writeBinaryMCU_run fuel file_content s :
  (64 <= fuel)%nat ->
  exists s1,
    program_loop file_content
      (upload_start (Z.of_nat (length file_content)) s) = (Ret tt, s1)
    /\ writeBinaryMCU fuel file_content s
       = (Ret (of_bool (accepts (isp_buffer (upload_end s1)) (package_no s1)
                          (take 64 (next_answer (isp_serial s1))))),
          upload_end s1).
Proof.
  intros Hfuel. rewrite writeBinaryMCU_start.
  assert (Hb0 : is_bytes
            (isp_buffer (upload_start (Z.of_nat (length file_content)) s))).
  { unfold upload_start. proj.
    destruct (mcu_connect_status s); [apply upload_header_bytes|constructor]. }
  destruct (program_loop_spec file_content
              (upload_start (Z.of_nat (length file_content)) s)
              ltac:(cbn; lia) Hb0)
    as (s1 & new & Hrun & _ & _ & Hsbl & Hbytes & _).
  exists s1. split; [exact Hrun|].
  rewrite (bind_run _ _ _ _ _ Hrun). rewrite bind_gets.
  destruct (Z.gtb_spec (start_byte_len s1) 0) as [_|H0]; [|lia].
  rewrite (bind_run _ _ _ _ _ (pad_loop_run fuel s1 ltac:(lia) ltac:(lia))).
  rewrite bind_serial_write
    by (proj; apply Forall_app; split; [assumption|apply is_bytes_zeros]).
  proj. rewrite bind_serial_read. proj.
  rewrite bind_calculateChecksum. proj.
  rewrite <- app_assoc.
  unfold upload_end, next_answer. proj.
  destruct (accepts _ _ _); reflexivity.
Qed.

(** Everything the upload does on the wire.  [fill] is the fill count of
    the last frame before padding. *)
Lemma writeBinaryMCU_spec fuel file_content s :
  (64 <= fuel)%nat ->
  exists r s' new fill,
    writeBinaryMCU fuel file_content s = (Ret r, s')
    /\ (r = PyTrue \/ r = PyFalse)
    /\ log (isp_serial s') = log (isp_serial s) ++ new
    /\ mcu_connect_status s' = mcu_connect_status s
    /\ 9 <= fill <= 64
    /\ 56 * (Z.of_nat (length (packets new)) - 1) + fill
       = Z.of_nat (length file_content) + 16
    /\ (mcu_connect_status s = true ->
        Forall (fun p : bytes => length p = 64%nat) (packets new)
        /\ exists hdr pre chunk,
             file_content = pre ++ chunk
             /\ (length hdr = 16%nat /\ pre = [] \/ length hdr = 8%nat)
             /\ fill = Z.of_nat (length hdr + length chunk)
             /\ last (packets new)
                = Some (hdr ++ chunk
                        ++ replicate (64 - length hdr - length chunk) x00)).
Proof.
  intros Hfuel.
  destruct (writeBinaryMCU_run fuel file_content s Hfuel) as (s1 & Hloop & Hrun).
  set (s0 := upload_start (Z.of_nat (length file_content)) s) in *.
  assert (Hb0 : is_bytes (isp_buffer s0)).
  { unfold s0, upload_start. proj.
    destruct (mcu_connect_status s); [apply upload_header_bytes|constructor]. }
  destruct (program_loop_spec file_content s0 ltac:(cbn; lia) Hb0)
    as (s1' & new & Hloop' & Hlog & Hcount & Hsbl & Hbytes & Hst & Hlen & Hcont).
  rewrite Hloop in Hloop'. injection Hloop' as <-.
  change (start_byte_len s0) with 16 in Hcount.
  change (log (isp_serial s0)) with (log (isp_serial s)) in Hlog.
  change (mcu_connect_status s0) with (mcu_connect_status s) in Hst.
  eexists _, (upload_end s1),
    (new ++ [EvWrite (map byte_of_Z
                        (isp_buffer s1
                         ++ replicate (Z.to_nat (64 - start_byte_len s1)) 0));
             EvRead 64 (take 64 (next_answer (isp_serial s1)))]),
    (start_byte_len s1).
  split; [exact Hrun|].
  split; [destruct (accepts _ _ _); [left|right]; reflexivity|].
  split; [unfold upload_end; proj; rewrite Hlog, app_assoc; reflexivity|].
  split; [exact Hst|].
  split; [exact Hsbl|].
  rewrite packets_app, length_app. cbn [packets length].
  split; [lia|].
  intros Hc.
  assert (Hl0 : Z.of_nat (length (isp_buffer s0)) = start_byte_len s0).
  { unfold s0, upload_start. proj. rewrite Hc. reflexivity. }
  destruct (Hlen Hl0) as [Hl1 Hall].
  split.
  - apply Forall_app. split; [exact Hall|].
    constructor; [|constructor].
    rewrite length_map, length_app, length_replicate. lia.
  - rewrite last_snoc.
    destruct Hcont as [[_ Hbuf]|(_ & hdr & pre & chunk & Hr & Hh & Hbuf)].
    + exists (map byte_of_Z (upload_header (package_no s + 2)
                               (Z.of_nat (length file_content)))),
        [], file_content.
      assert (Hbuf1 : isp_buffer s1
                = upload_header (package_no s + 2) (Z.of_nat (length file_content))
                  ++ map byte_val file_content).
      { rewrite Hbuf. unfold s0, upload_start. proj. rewrite Hc. reflexivity. }
      rewrite Hbuf1, length_app, length_map in Hl1. cbn [upload_header length] in Hl1.
      split; [reflexivity|]. split; [left; split; reflexivity|].
      rewrite length_map. cbn [upload_header length].
      split; [lia|].
      rewrite Hbuf1, !map_app, map_byte_of_Z_val, map_byte_of_Z_zeros, <- app_assoc.
      do 4 f_equal. lia.
    + exists (map byte_of_Z hdr), pre, chunk.
      rewrite Hbuf, length_app, length_map in Hl1.
      split; [exact Hr|]. split; [right; rewrite length_map; exact Hh|].
      rewrite length_map.
      split; [lia|].
      rewrite Hbuf, !map_app, map_byte_of_Z_val, map_byte_of_Z_zeros, <- app_assoc.
      do 4 f_equal. lia.
Qed.

(** X16: on a connected session every frame of the upload is 64 bytes
    long. *)
Lemma upload_packets_64 fuel file_content s :
  (64 <= fuel)%nat ->
  mcu_connect_status s = true ->
  exists new,
    log (isp_serial (snd (writeBinaryMCU fuel file_content s)))
    = log (isp_serial s) ++ new
    /\ Forall (fun p : bytes => length p = 64%nat) (packets new).
Proof.
  intros Hfuel Hc.
  destruct (writeBinaryMCU_spec fuel file_content s Hfuel)
    as (r & s' & new & fill & Hrun & _ & Hlog & _ & _ & _ & Hconn).
  exists new. rewrite Hrun. split; [exact Hlog|]. apply (Hconn Hc).
Qed.

(** On line or off line, the upload writes at least one packet. *)
Lemma upload_always_writes fuel file_content s :
  (64 <= fuel)%nat ->
  exists new,
    log (isp_serial (snd (writeBinaryMCU fuel file_content s)))
    = log (isp_serial s) ++ new
    /\ (1 <= length (packets new))%nat.
Proof.
  intros Hfuel.
  destruct (writeBinaryMCU_spec fuel file_content s Hfuel)
    as (r & s' & new & fill & Hrun & _ & Hlog & _ & Hfill & Hcount & _).
  exists new. rewrite Hrun. split; [exact Hlog|]. lia.
Qed.

(** X17: every command method, on line or off line, writes packets of 64
    bytes only. *)
Lemma command_packets_64 c s :
  exists new,
    log (isp_serial (snd (run_command c s))) = log (isp_serial s) ++ new
    /\ Forall (fun p : bytes => length p = 64%nat) (packets new).
Proof.
  destruct (mcu_connect_status s) eqn:Hst.
  - destruct (decide (c = CmdConnect)) as [->|Hnc];
      [|destruct (decide (c = CmdSync)) as [->|Hns]].
    + exists []. cbn [run_command]. rewrite (connectMCU_connected s Hst).
      rewrite app_nil_r. split; [reflexivity|constructor].
    + eexists. cbn [run_command]. rewrite (syncMCU_connected s Hst).
      split.
      * destruct (nonempty _); [destruct (accepts _ _ _)|]; reflexivity.
      * repeat constructor.
    + assert (Hp : is_plain c = true) by (destruct c; cbn in *; congruence).
      destruct (plain_command_effects c s Hp Hst) as (_ & _ & Hlog).
      eexists. split; [exact Hlog|]. repeat constructor.
  - destruct (decide (c = CmdConnect)) as [->|Hnc].
    + eexists. cbn [run_command]. rewrite (connectMCU_disconnected s Hst).
      split.
      * destruct (_ && _); reflexivity.
      * repeat constructor.
    + exists []. rewrite (command_disconnected c s Hnc Hst).
      rewrite app_nil_r. split; [reflexivity|constructor].
Qed.

Lemma is_bytes_app l1 l2 : is_bytes l1 -> is_bytes l2 -> is_bytes (l1 ++ l2).
Proof. intros H1 H2. apply Forall_app. split; assumption. Qed.

(** *** The frames one by one *)

Lemma bind_ext {A B} (m : M A) (f g : A -> M B) s :
  (forall a s1, f a s1 = g a s1) -> bind m f s = bind m g s.
Proof.
  intros H. unfold bind. destruct (m s) as [[a| |] s1]; [apply H|reflexivity|reflexivity].
Qed.

Lemma program_loop_app a b s :
  program_loop (a ++ b) s
  = bind (program_loop a) (fun _ => program_loop b) s.
Proof.
  revert s. induction a as [|x a IH]; intros s; [reflexivity|].
  cbn [app program_loop]. rewrite bind_assoc.
  apply bind_ext. intros _ s1. apply IH.
Qed.

(** Bytes that still fit into the frame being filled are appended to it;
    nothing is sent. *)
Lemma program_loop_fill a : forall s,
  9 <= start_byte_len s ->
  start_byte_len s + Z.of_nat (length a) <= 64 ->
  is_bytes (isp_buffer s) ->
  program_loop a s
  = (Ret tt,
     set_start_byte_len (start_byte_len s + Z.of_nat (length a))
       (set_isp_buffer (isp_buffer s ++ map byte_val a) s)).
Proof.
  induction a as [|b a IH]; intros s Hlo Hhi Hbytes.
  - cbn [program_loop length map]. rewrite app_nil_r, Z.add_0_r.
    destruct s; reflexivity.
  - cbn [length] in Hhi. cbn [program_loop].
    rewrite (bind_run _ _ _ _ _ (program_byte_run b s ltac:(lia) Hbytes)).
    unfold program_step.
    destruct (Z.eqb_spec (start_byte_len s) 64) as [Heq|_]; [lia|].
    rewrite IH; proj; try lia.
    + unfold set_start_byte_len, set_isp_buffer. proj.
      rewrite <- app_assoc. cbn [map app length].
      do 2 f_equal. lia.
    + apply is_bytes_app; [assumption|].
      constructor; [apply byte_val_range|constructor].
Qed.

(** With the buffer full, the next bytes (at most 56) send the buffer,
    drop the answer, and start the frame they go into. *)
Lemma program_loop_next_frame a s :
  start_byte_len s = 64 ->
  is_bytes (isp_buffer s) ->
  a <> [] ->
  (length a <= 56)%nat ->
  program_loop a s
  = (Ret tt,
     mkISPLoader
       (mkSerial (timeout (isp_serial s)) (tl (rx (isp_serial s)))
          (log (isp_serial s)
           ++ [EvWrite (map byte_of_Z (isp_buffer s));
               EvRead 64 (take 64 (next_answer (isp_serial s)))]))
       (frame_header (package_no s + 2) ++ map byte_val a)
       (mcu_connect_status s) (package_no s + 2) (firmware_version s)
       (device_id s) (config_0 s) (config_1 s)
       (8 + Z.of_nat (length a))).
Proof.
  intros Hfull Hbytes Hne Hlen.
  destruct a as [|b a]; [congruence|]. cbn [length] in Hlen.
  cbn [program_loop].
  rewrite (bind_run _ _ _ _ _ (program_byte_run b s ltac:(lia) Hbytes)).
  unfold program_step. rewrite Hfull. change (64 =? 64) with true. cbv iota.
  rewrite program_loop_fill; proj; try lia.
  - unfold set_start_byte_len, set_isp_buffer. proj.
    rewrite <- app_assoc. cbn [map app length].
    do 2 f_equal. lia.
  - apply is_bytes_app; [apply frame_header_bytes|].
    constructor; [apply byte_val_range|constructor].
Qed.

Lemma ceil_div_56_small x : 0 < x <= 56 -> ceil_div x 56 = 1.
Proof.
  intros H. unfold ceil_div. symmetry.
  apply (Z.div_unique_pos _ _ _ (x - 1)); lia.
Qed.

Lemma ceil_div_56_step x : ceil_div x 56 = ceil_div (x - 56) 56 + 1.
Proof.
  unfold ceil_div.
  replace (x + 56 - 1) with (x - 56 + 56 - 1 + 1 * 56) by lia.
  rewrite Z.div_add by lia. reflexivity.
Qed.

(** With the buffer full and image bytes [data] left, the loop sends the
    buffer and then one frame for every 56 bytes of [data] but the last,
    which it leaves in the buffer; padded to 64 bytes, that one is the
    last of [later_frames]. *)
Lemma program_loop_later_frames k : forall data s,
  start_byte_len s = 64 ->
  is_bytes (isp_buffer s) ->
  data <> [] ->
  Z.to_nat (ceil_div (Z.of_nat (length data)) 56) = k ->
  exists s' new,
    program_loop data s = (Ret tt, s')
    /\ log (isp_serial s') = log (isp_serial s) ++ new
    /\ packets new
       ++ [map byte_of_Z (isp_buffer s')
           ++ replicate (Z.to_nat (64 - start_byte_len s')) x00]
       = map byte_of_Z (isp_buffer s)
         :: later_frames k (package_no s + 2) data.
Proof.
  induction k as [|k IH]; intros data s Hfull Hbytes Hne Hk.
  - destruct data as [|b data]; [congruence|]. cbn [length] in Hk.
    pose proof (ceil_div_56_step (Z.of_nat (S (length data)))) as Hs.
    assert (0 <= ceil_div (Z.of_nat (S (length data)) - 56) 56).
    { unfold ceil_div. apply Z.div_pos; lia. }
    lia.
  - destruct (decide (length data <= 56)%nat) as [Hle|Hgt].
    + assert (Hk1 : k = 0%nat).
      { rewrite ceil_div_56_small in Hk; [lia|].
        destruct data; [congruence|cbn [length] in *; lia]. }
      subst k.
      eexists _, [EvWrite (map byte_of_Z (isp_buffer s));
                  EvRead 64 (take 64 (next_answer (isp_serial s)))].
      split; [apply (program_loop_next_frame data s Hfull Hbytes Hne Hle)|].
      proj. split; [reflexivity|].
      cbn [packets app later_frames]. f_equal. f_equal.
      rewrite map_app, map_byte_of_Z_val, <- app_assoc.
      rewrite take_ge by lia. do 3 f_equal. lia.
    + replace (program_loop data s)
        with (program_loop (take 56 data ++ drop 56 data) s)
        by (rewrite take_drop; reflexivity).
      rewrite program_loop_app.
      assert (Hlt : (length (take 56 data) = 56)%nat)
        by (rewrite length_take; lia).
      rewrite (bind_run _ _ _ _ _
                 (program_loop_next_frame (take 56 data) s Hfull Hbytes
                    ltac:(intros H; rewrite H in Hlt; discriminate Hlt)
                    ltac:(lia))).
      match goal with |- context [program_loop _ ?st] => set (s2 := st) end.
      destruct (IH (drop 56 data) s2) as (s' & new & Hrun & Hlog & Hpk).
      { unfold s2. proj. rewrite Hlt. reflexivity. }
      { unfold s2. proj.
        apply is_bytes_app; [apply frame_header_bytes|apply is_bytes_val]. }
      { intros H. apply (f_equal length) in H. rewrite length_drop in H.
        cbn [length] in H. lia. }
      { rewrite length_drop.
        rewrite (ceil_div_56_step (Z.of_nat (length data))) in Hk.
        assert (0 <= ceil_div (Z.of_nat (length data) - 56) 56).
        { unfold ceil_div. apply Z.div_pos; lia. }
        replace (Z.of_nat (length data - 56)) with (Z.of_nat (length data) - 56)
          by lia.
        lia. }
      exists s',
        ([EvWrite (map byte_of_Z (isp_buffer s));
          EvRead 64 (take 64 (next_answer (isp_serial s)))] ++ new).
      split; [exact Hrun|].
      split; [rewrite Hlog; unfold s2; proj; rewrite <- app_assoc; reflexivity|].
      cbn [app packets later_frames]. f_equal.
      rewrite Hpk. unfold s2. proj. f_equal.
      rewrite map_app, map_byte_of_Z_val.
      replace (56 - length data)%nat with 0%nat by lia.
      cbn [replicate]. rewrite app_nil_r. reflexivity.
Qed.

(** On a connected session the packets of an upload are exactly
    [upload_frames]. *)
Lemma writeBinaryMCU_packets fuel file_content s :
  (64 <= fuel)%nat ->
  mcu_connect_status s = true ->
  exists new,
    log (isp_serial (snd (writeBinaryMCU fuel file_content s)))
    = log (isp_serial s) ++ new
    /\ packets new = upload_frames (package_no s) file_content.
Proof.
  intros Hfuel Hc.
  destruct (writeBinaryMCU_run fuel file_content s Hfuel) as (s1 & Hloop & Hrun).
  rewrite Hrun. cbn [snd]. clear Hrun.
  set (L := length file_content) in *.
  set (hdr := upload_header (package_no s + 2) (Z.of_nat L)).
  set (s0 := upload_start (Z.of_nat L) s) in *.
  assert (Hbuf0 : isp_buffer s0 = hdr).
  { unfold s0, upload_start. proj. rewrite Hc. reflexivity. }
  assert (Hpn0 : package_no s0 = package_no s + 2).
  { unfold s0, upload_start. proj. rewrite Hc. reflexivity. }
  assert (Hb0 : is_bytes (isp_buffer s0)).
  { rewrite Hbuf0. apply upload_header_bytes. }
  assert (Hsbl0 : start_byte_len s0 = 16) by reflexivity.
  assert (Hlog0 : log (isp_serial s0) = log (isp_serial s)) by reflexivity.
  clearbody s0.
  assert (Hzeros : forall buf n,
             map byte_of_Z (buf ++ replicate n 0)
             = map byte_of_Z buf ++ replicate n x00).
  { intros buf n. rewrite map_app, map_byte_of_Z_zeros. reflexivity. }
  unfold upload_frames. fold L. fold hdr.
  destruct (decide (L <= 48)%nat) as [Hle|Hgt].
  - rewrite (program_loop_fill file_content s0 ltac:(lia)
               ltac:(fold L; lia) Hb0) in Hloop.
    injection Hloop as <-.
    eexists. unfold upload_end. proj. rewrite Hlog0. split; [reflexivity|].
    cbn [packets].
    replace (Z.to_nat (ceil_div (Z.of_nat L - 48) 56)) with 0%nat.
    2:{ unfold ceil_div. rewrite Z.div_small by lia. reflexivity. }
    cbn [later_frames]. f_equal.
    rewrite Hzeros, Hbuf0, map_app, map_byte_of_Z_val, <- app_assoc.
    rewrite take_ge by (fold L; lia).
    rewrite Hsbl0. fold L.
    do 3 f_equal. lia.
  - replace (program_loop file_content s0)
      with (program_loop (take 48 file_content ++ drop 48 file_content) s0)
      in Hloop by (rewrite take_drop; reflexivity).
    rewrite program_loop_app in Hloop.
    assert (H48 : length (take 48 file_content) = 48%nat)
      by (rewrite length_take; fold L; lia).
    rewrite (bind_run _ _ _ _ _
               (program_loop_fill (take 48 file_content) s0 ltac:(lia)
                  ltac:(rewrite H48; lia) Hb0)) in Hloop.
    match type of Hloop with program_loop _ ?st = _ => set (sf := st) in * end.
    destruct (program_loop_later_frames
                (Z.to_nat (ceil_div (Z.of_nat L - 48) 56))
                (drop 48 file_content) sf)
      as (s1' & new & Hrun & Hlog & Hpk).
    { unfold sf. proj. rewrite H48, Hsbl0. reflexivity. }
    { unfold sf. proj. apply is_bytes_app; [assumption|apply is_bytes_val]. }
    { intros H. apply (f_equal length) in H. rewrite length_drop in H.
      fold L in H. cbn [length] in H. lia. }
    { rewrite length_drop. fold L.
      replace (Z.of_nat (L - 48)) with (Z.of_nat L - 48) by lia. reflexivity. }
    rewrite Hrun in Hloop. injection Hloop as ->.
    exists (new ++ [EvWrite (map byte_of_Z
                              (isp_buffer s1
                               ++ replicate (Z.to_nat (64 - start_byte_len s1)) 0));
                    EvRead 64 (take 64 (next_answer (isp_serial s1)))]).
    split.
    + unfold upload_end. proj. rewrite Hlog. unfold sf. proj.
      rewrite Hlog0, <- app_assoc. reflexivity.
    + rewrite packets_app. cbn [packets]. rewrite Hzeros, Hpk.
      unfold sf. proj. rewrite Hbuf0, Hpn0.
      rewrite map_app, map_byte_of_Z_val.
      replace (48 - L)%nat with 0%nat by lia. cbn [replicate].
      rewrite app_nil_r.
      replace (package_no s + 2 + 2) with (package_no s + 4) by lia.
      reflexivity.
Qed.

(** C2, as the code has it: the upload of an image of L bytes returns
    after transmitting exactly ceil((L + 8) / 56) packets; an image of
    exactly 56 bytes takes 2 packets.  On a connected session at sequence
    number pn the packets are exactly [upload_frames pn]: the first is the
    16-byte header (command 0xA0, sequence number pn + 2, address 0,
    length L) with the first 48 image bytes, every later one an 8-byte
    header (no command code, the sequence number at bytes 4-7, advancing by
    2 from packet to packet) with the next 56 image bytes; every packet is
    64 bytes long, and the last is its header, the image bytes not yet
    sent, and zeroes up to 64 bytes. *)
Theorem upload_packet_count (fuel : nat) (file_content : bytes)
    (s : ISPLoader) :
  (64 <= fuel)%nat ->
  exists r s' new,
    writeBinaryMCU fuel file_content s = (Ret r, s')
    /\ log (isp_serial s') = log (isp_serial s) ++ new
    /\ Z.of_nat (length (packets new))
       = ceil_div (Z.of_nat (length file_content) + 8) 56
    /\ (length file_content = 56%nat -> length (packets new) = 2%nat)
    /\ (mcu_connect_status s = true ->
        packets new = upload_frames (package_no s) file_content
        /\ Forall (fun p : bytes => length p = 64%nat) (packets new)
        /\ exists hdr pre chunk,
             file_content = pre ++ chunk
             /\ (length hdr = 16%nat /\ pre = [] \/ length hdr = 8%nat)
             /\ last (packets new)
                = Some (hdr ++ chunk
                        ++ replicate (64 - length hdr - length chunk) x00)
             /\ length (hdr ++ chunk
                        ++ replicate (64 - length hdr - length chunk) x00)
                = 64%nat).
Proof.
  intros Hfuel.
  destruct (writeBinaryMCU_spec fuel file_content s Hfuel)
    as (r & s' & new & fill & Hrun & _ & Hlog & _ & Hfill & Hcount & Hconn).
  exists r, s', new.
  split; [exact Hrun|]. split; [exact Hlog|].
  assert (Hn : Z.of_nat (length (packets new))
               = ceil_div (Z.of_nat (length file_content) + 8) 56).
  { unfold ceil_div. apply (Z.div_unique_pos _ _ _ (fill - 9)); lia. }
  split; [exact Hn|]. split.
  - intros H56. rewrite H56 in Hn. change (ceil_div (Z.of_nat 56 + 8) 56) with 2 in Hn.
    lia.
  - intros Hc.
    destruct (Hconn Hc) as (H64 & hdr & pre & chunk & Hr & Hh & Hf & Hlast).
    split; [|split; [exact H64|]].
    + destruct (writeBinaryMCU_packets fuel file_content s Hfuel Hc)
        as (new' & Hlog' & Hframes).
      rewrite Hrun in Hlog'. cbn [snd] in Hlog'.
      rewrite Hlog in Hlog'. apply app_inv_head in Hlog'. subst new'.
      exact Hframes.
    + exists hdr, pre, chunk. repeat split; try assumption.
      rewrite !length_app, length_replicate. lia.
Qed.

(** Witness for [upload_packet_count]: an image of 56 bytes on a connected
    session. *)
Lemma upload_packet_count_witness :
  exists r s' new,
    writeBinaryMCU 64 (replicate 56 x01) upload_session = (Ret r, s')
    /\ log (isp_serial s') = log (isp_serial upload_session) ++ new
    /\ Z.of_nat (length (packets new))
       = ceil_div (Z.of_nat (length (replicate 56 x01)) + 8) 56
    /\ (length (replicate 56 x01) = 56%nat -> length (packets new) = 2%nat)
    /\ (mcu_connect_status upload_session = true ->
        packets new = upload_frames (package_no upload_session)
                        (replicate 56 x01)
        /\ Forall (fun p : bytes => length p = 64%nat) (packets new)
        /\ exists hdr pre chunk,
             replicate 56 x01 = pre ++ chunk
             /\ (length hdr = 16%nat /\ pre = [] \/ length hdr = 8%nat)
             /\ last (packets new)
                = Some (hdr ++ chunk
                        ++ replicate (64 - length hdr - length chunk) x00)
             /\ length (hdr ++ chunk
                        ++ replicate (64 - length hdr - length chunk) x00)
                = 64%nat).
Proof.
  apply (upload_packet_count 64 (replicate 56 x01) upload_session). lia.
Defined.

(** Counterexample to C2 as stated: on a connected session an image of 105
    bytes goes out in 3 packets, while ceil((105 + 16) / 64) is 2. *)
Lemma upload_packet_count_counterexample :
  length (packets (log (isp_serial
            (snd (writeBinaryMCU 64 (replicate 105 x01) upload_session)))))
  = 3%nat
  /\ ceil_div (Z.of_nat (length (replicate 105 x01)) + 16) 64 = 2
  /\ Z.of_nat
       (length (packets (log (isp_serial
          (snd (writeBinaryMCU 64 (replicate 105 x01) upload_session))))))
     <> ceil_div (Z.of_nat (length (replicate 105 x01)) + 16) 64.
Proof.
  split; [vm_compute; reflexivity|].
  split; [vm_compute; reflexivity|].
  vm_compute. discriminate.
Qed.

(** C4 fails off line: [writeBinaryMCU] on a session that never connected
    sends the three bytes of the image padded to 48 bytes, not 64. *)
Theorem upload_off_line_packet_length :
  mcu_connect_status (ISPLoader_init []) = false
  /\ packets (log (isp_serial
        (snd (writeBinaryMCU 64 [x01; x02; x03] (ISPLoader_init [])))))
     = [[x01; x02; x03] ++ replicate 45 x00]
  /\ length ([x01; x02; x03] ++ replicate 45 x00) = 48%nat.
Proof. repeat split; vm_compute; reflexivity. Qed.

(** C7 fails for the upload: on a session that never connected
    [writeBinaryMCU] writes to the port and reads from it, and when the
    device answers with checksum 0 and sequence number 2 it returns
    [True]. *)
Theorem upload_off_line_touches_port :
  mcu_connect_status (ISPLoader_init []) = false
  /\ log (isp_serial (snd (writeBinaryMCU 64 [] (ISPLoader_init []))))
     = [EvWrite (replicate 48 x00); EvRead 64 []]
  /\ fst (writeBinaryMCU 64 []
            (ISPLoader_init [map byte_of_Z [0; 0; 0; 0; 2; 0; 0; 0]]))
     = Ret PyTrue.
Proof. repeat split; vm_compute; reflexivity. Qed.

(** ** The retry loops *)

(** Once connected, with the device gone silent, a pass through the loop
    of [main] finds [connectMCU] true at once, puts [timeout_counter] back
    to 0, fails in [syncMCU], and comes out connected as before. *)
Lemma main_body_silent fuel o tc d s :
  mcu_connect_status s = true ->
  rx (isp_serial s) = [] ->
  main_body fuel o tc d s = (Ret (false, 0, d), synced s).
Proof.
  intros Hc Hrx. unfold main_body.
  rewrite (bind_run _ _ _ _ _ (connectMCU_connected s Hc)). cbn [truthy].
  assert (Hsync : syncMCU s = (Ret PyFalse, synced s)).
  { rewrite (syncMCU_connected s Hc). unfold next_answer. rewrite Hrx.
    reflexivity. }
  rewrite (bind_run _ _ _ _ _ Hsync). reflexivity.
Qed.

Lemma main_loop_silent o fuel : forall tc d s,
  10 < mcu_connection_timeout o ->
  tc <= 10 ->
  mcu_connect_status s = true ->
  rx (isp_serial s) = [] ->
  fst (main_loop fuel o tc d s) = OutOfFuel.
Proof.
  induction fuel as [|fuel IH]; intros tc d s Hbudget Htc Hc Hrx;
    [reflexivity|].
  cbn [main_loop].
  destruct (Z.ltb_spec tc (mcu_connection_timeout o)) as [_|Hge]; [|lia].
  rewrite (bind_run _ _ _ _ _ (main_body_silent (S fuel) o tc d s Hc Hrx)).
  cbv iota. apply IH; try assumption; try lia.
  unfold synced. proj. rewrite Hrx. reflexivity.
Qed.

(** The first pass, on a device that answers the connect packet and then
    falls silent. *)
Lemma main_body_first fuel o tc d :
  main_body fuel o tc d (ISPLoader_init [ans_connect])
  = (Ret (false, 0, d),
     synced (connect_attempted 500 true (ISPLoader_init [ans_connect]))).
Proof.
  unfold main_body.
  assert (Hconn : connectMCU (ISPLoader_init [ans_connect])
                  = (Ret PyTrue,
                     connect_attempted 500 true (ISPLoader_init [ans_connect]))).
  { rewrite connectMCU_disconnected by reflexivity.
    replace (nonempty _ && accepts _ _ _) with true by (vm_compute; reflexivity).
    reflexivity. }
  rewrite (bind_run _ _ _ _ _ Hconn). cbn [truthy].
  assert (Hsync : syncMCU (connect_attempted 500 true (ISPLoader_init [ans_connect]))
                  = (Ret PyFalse,
                     synced (connect_attempted 500 true
                               (ISPLoader_init [ans_connect])))).
  { rewrite syncMCU_connected by reflexivity. reflexivity. }
  rewrite (bind_run _ _ _ _ _ Hsync). reflexivity.
Qed.

(** C6 fails for [main]: with the default budget of 1000, a device that
    answers the connect packet and then falls silent keeps the loop going
    for ever; whatever the number of passes allowed, the loop has not
    ended. *)
Theorem main_retries_without_bound (fuel : nat) :
  fst (main fuel default_options [ans_connect]) = OutOfFuel.
Proof.
  destruct fuel as [|fuel]; [reflexivity|].
  unfold main. cbn [main_loop].
  change (0 <? mcu_connection_timeout default_options) with true. cbv iota.
  rewrite (bind_run _ _ _ _ _ (main_body_first (S fuel) default_options 0 _)).
  cbv iota.
  apply main_loop_silent; try reflexivity; cbn; lia.
Qed.

(** The methods used by [mcuLoadSoftware] always return. *)
Lemma connectMCU_returns s : exists r s', connectMCU s = (Ret r, s').
Proof.
  destruct (mcu_connect_status s) eqn:Hc.
  - rewrite (connectMCU_connected s Hc). eauto.
  - rewrite (connectMCU_disconnected s Hc). destruct (_ && _); eauto.
Qed.

Lemma syncMCU_returns s : exists r s', syncMCU s = (Ret r, s').
Proof.
  destruct (mcu_connect_status s) eqn:Hc.
  - rewrite (syncMCU_connected s Hc).
    destruct (nonempty _); [destruct (accepts _ _ _)|]; eauto.
  - change syncMCU with (run_command CmdSync).
    rewrite (command_disconnected CmdSync s ltac:(discriminate) Hc). eauto.
Qed.

Lemma eraseAllMCU_returns s : exists r s', eraseAllMCU s = (Ret r, s').
Proof.
  destruct (mcu_connect_status s) eqn:Hc.
  - change eraseAllMCU with (run_command CmdEraseAll). open_plain Hc.
    destruct (nonempty _); [|eauto].
    rewrite bind_calculateChecksum. destruct (accepts _ _ _); eauto.
  - change eraseAllMCU with (run_command CmdEraseAll).
    rewrite (command_disconnected CmdEraseAll s ltac:(discriminate) Hc). eauto.
Qed.

Lemma runAPROM_returns s : exists r s', runAPROM s = (Ret r, s').
Proof.
  destruct (mcu_connect_status s) eqn:Hc.
  - change runAPROM with (run_command CmdRunAPROM). open_plain Hc. eauto.
  - change runAPROM with (run_command CmdRunAPROM).
    rewrite (command_disconnected CmdRunAPROM s ltac:(discriminate) Hc). eauto.
Qed.

Lemma writeBinaryMCU_returns fuel file_content s :
  (64 <= fuel)%nat ->
  exists r s', writeBinaryMCU fuel file_content s = (Ret r, s').
Proof.
  intros Hfuel.
  destruct (writeBinaryMCU_run fuel file_content s Hfuel) as (s1 & _ & Hrun).
  rewrite Hrun. eauto.
Qed.

Lemma mcuLoadSoftware_body_returns fuel bf reset erase d s :
  (64 <= fuel)%nat ->
  exists res s', mcuLoadSoftware_body fuel bf reset erase d s = (Ret res, s').
Proof.
  intros Hfuel. unfold mcuLoadSoftware_body.
  destruct (connectMCU_returns s) as (c & s1 & H1).
  rewrite (bind_run _ _ _ _ _ H1). destruct (truthy c); [|eauto].
  destruct (syncMCU_returns s1) as (y & s2 & H2).
  rewrite (bind_run _ _ _ _ _ H2). destruct (truthy y); [|eauto].
  match goal with
  | |- exists _ _, bind _ ?K0 _ = _ => set (K := K0)
  end.
  assert (HK : forall p st, exists res s', K p st = (Ret res, s')).
  { intros [e d'] st. subst K. cbv beta iota.
    destruct (syncMCU_returns st) as (y2 & s3 & H3).
    rewrite (bind_run _ _ _ _ _ H3). destruct (truthy y2); [|eauto].
    destruct (writeBinaryMCU_returns fuel bf s3 Hfuel) as (w & s4 & H4).
    rewrite (bind_run _ _ _ _ _ H4).
    destruct reset.
    - rewrite bind_assoc.
      destruct (runAPROM_returns s4) as (a & s5 & H5).
      rewrite (bind_run _ _ _ _ _ H5). eauto.
    - rewrite bind_ret. eauto. }
  destruct erase.
  - rewrite bind_assoc.
    destruct (eraseAllMCU_returns s2) as (e & s3 & H3).
    rewrite (bind_run _ _ _ _ _ H3).
    destruct (truthy e); rewrite bind_ret; apply HK.
  - rewrite bind_ret. apply HK.
Qed.

(** The loop of [mcuLoadSoftware] never puts its counter back: [n] passes
    are enough for a budget of at most [10 * n]. *)
Lemma mcuLoadSoftware_loop_returns bf reset budget n :
  forall fuel erase tc d s,
    (n + 64 <= fuel)%nat ->
    budget - tc <= 10 * Z.of_nat n ->
    exists d' s',
      mcuLoadSoftware_loop fuel bf reset budget erase tc d s = (Ret d', s').
Proof.
  induction n as [|n IH]; intros fuel erase tc d s Hfuel Hbudget;
    (destruct fuel as [|fuel]; [lia|]); cbn [mcuLoadSoftware_loop];
    destruct (Z.ltb_spec tc budget) as [Hlt|Hge]; try lia; try (eexists _, _; reflexivity).
  destruct (mcuLoadSoftware_body_returns (S fuel) bf reset erase d s ltac:(lia))
    as ([[broke e'] d'] & s1 & Hbody).
  rewrite (bind_run _ _ _ _ _ Hbody).
  destruct broke; [eexists _, _; reflexivity|].
  apply IH; lia.
Qed.

(** [mcuLoadSoftware] returns its dictionary, whatever the device
    answers. *)
Lemma mcuLoadSoftware_returns fuel bf port erase reset budget answers n :
  budget <= 10 * Z.of_nat n ->
  (n + 64 <= fuel)%nat ->
  exists d s',
    mcuLoadSoftware fuel bf port erase reset budget answers = (Ret d, s').
Proof.
  intros Hbudget Hfuel. unfold mcuLoadSoftware.
  apply (mcuLoadSoftware_loop_returns bf reset budget n); lia.
Qed.

(** * Further properties of the loader *)

(** ** The sequence number in the packet *)

Lemma le_bytes_mod x :
  Z.land x 0xFF + 256 * Z.land (Z.shiftr x 8) 0xFF
  + 65536 * Z.land (Z.shiftr x 16) 0xFF
  + 16777216 * Z.land (Z.shiftr x 24) 0xFF
  = x mod 2 ^ 32.
Proof.
  change 255 with (Z.ones 8).
  rewrite !Z.land_ones, !Z.shiftr_div_pow2 by lia.
  change (2 ^ 32) with (2 ^ 8 * (2 ^ 8 * (2 ^ 8 * 2 ^ 8))).
  rewrite !Z.rem_mul_r by lia.
  rewrite !Z.div_div by lia.
  change (2 ^ 8 * 2 ^ 8) with (2 ^ 16).
  change (2 ^ 8 * 2 ^ 16) with (2 ^ 24).
  change (2 ^ 8) with 256. change (2 ^ 16 * 256) with (2 ^ 24). lia.
Qed.

(** X1: on a buffer of at least 8 elements [updatePackageNumber] returns,
    changes nothing but positions 4-7 of the buffer, and the little-endian
    value it leaves there is the sequence number modulo 2^32 (the sequence
    number itself while it fits 32 bits). *)
Theorem updatePackageNumber_roundtrip (s : ISPLoader) :
  (8 <= length (isp_buffer s))%nat ->
  exists buf',
    updatePackageNumber s = (Ret tt, set_isp_buffer buf' s)
    /\ length buf' = length (isp_buffer s)
    /\ buffer_word buf' 4 = package_no s mod 2 ^ 32
    /\ (0 <= package_no s < 2 ^ 32 -> buffer_word buf' 4 = package_no s)
    /\ (forall i, (i < 4 \/ 8 <= i)%nat -> buf' !! i = isp_buffer s !! i).
Proof.
  intros Hlen.
  pose proof (bind_updatePackageNumber (fun _ => ret tt) s Hlen) as Hrun.
  assert (Hb : bind updatePackageNumber (fun _ => ret tt) s = updatePackageNumber s).
  { unfold bind. destruct (updatePackageNumber s) as [[[]| |] s1]; reflexivity. }
  rewrite Hb in Hrun. unfold ret in Hrun.
  eexists. split; [exact Hrun|].
  split; [rewrite !length_insert; reflexivity|].
  assert (Hword : buffer_word
            (<[7%nat:=Z.land (Z.shiftr (package_no s) 24) 255]>
               (<[6%nat:=Z.land (Z.shiftr (package_no s) 16) 255]>
                  (<[5%nat:=Z.land (Z.shiftr (package_no s) 8) 255]>
                     (<[4%nat:=Z.land (package_no s) 255]> (isp_buffer s))))) 4
          = package_no s mod 2 ^ 32).
  { rewrite <- le_bytes_mod.
    destruct (isp_buffer s) as [|a0 [|a1 [|a2 [|a3 [|a4 [|a5 [|a6 [|a7 l]]]]]]]];
      cbn [length] in Hlen; try lia.
    reflexivity. }
  split; [exact Hword|]. split.
  - intros Hr. rewrite Hword. apply Z.mod_small. exact Hr.
  - intros i Hi. rewrite !list_lookup_insert_ne by lia. reflexivity.
Qed.

(** Witness for [updatePackageNumber_roundtrip]: sequence number 4711 on a
    cleared buffer. *)
Lemma updatePackageNumber_roundtrip_witness :
  exists buf',
    updatePackageNumber (snd (bufferClear silent_session))
    = (Ret tt, set_isp_buffer buf' (snd (bufferClear silent_session)))
    /\ length buf' = length (isp_buffer (snd (bufferClear silent_session)))
    /\ buffer_word buf' 4 = package_no (snd (bufferClear silent_session)) mod 2 ^ 32
    /\ (0 <= package_no (snd (bufferClear silent_session)) < 2 ^ 32 ->
        buffer_word buf' 4 = package_no (snd (bufferClear silent_session)))
    /\ (forall i, (i < 4 \/ 8 <= i)%nat ->
        buf' !! i = isp_buffer (snd (bufferClear silent_session)) !! i).
Proof.
  apply (updatePackageNumber_roundtrip (snd (bufferClear silent_session))).
  vm_compute. lia.
Defined.

(** X2: on a buffer shorter than 8 elements, as the one a fresh loader
    has, [updatePackageNumber] raises [IndexError]. *)
Theorem updatePackageNumber_short_buffer (s : ISPLoader) :
  (length (isp_buffer s) < 8)%nat ->
  fst (updatePackageNumber s) = Raise IndexError.
Proof.
  intros Hlen. unfold updatePackageNumber.
  destruct s as [p buf st pn fv di c0 c1 sbl]. cbn [isp_buffer] in Hlen.
  destruct buf as [|a0 [|a1 [|a2 [|a3 [|a4 [|a5 [|a6 [|a7 l]]]]]]]];
    cbn [length] in Hlen; try lia;
    unfold bind, gets, buffer_set; cbn; reflexivity.
Qed.

(** Witness for [updatePackageNumber_short_buffer]: the loader as
    [__init__] leaves it. *)
Lemma updatePackageNumber_short_buffer_witness :
  fst (updatePackageNumber (ISPLoader_init [])) = Raise IndexError.
Proof.
  apply (updatePackageNumber_short_buffer (ISPLoader_init [])).
  vm_compute. lia.
Defined.

(** X3: the sequence number is an unbounded integer while the echoed
    number in a response is below 2^32; once the sequence number plus one
    leaves the 32-bit range, [calculateChecksum] rejects every response. *)
Theorem calculateChecksum_sequence_overflow (s : ISPLoader) (resp : bytes) :
  package_no s + 1 < 0 \/ 2 ^ 32 <= package_no s + 1 ->
  calculateChecksum resp s = (Ret false, s).
Proof.
  intros Hpn. rewrite calculateChecksum_run. f_equal. f_equal.
  apply not_true_is_false. intros Hacc.
  apply accepts_true_iff in Hacc as (_ & _ & Hseq).
  unfold response_sequence in Hseq.
  pose proof (byte_val_range (nth 4 resp x00)).
  pose proof (byte_val_range (nth 5 resp x00)).
  pose proof (byte_val_range (nth 6 resp x00)).
  pose proof (byte_val_range (nth 7 resp x00)).
  lia.
Qed.

(** Witness for [calculateChecksum_sequence_overflow]: sequence number
    2^32 - 1, and an answer echoing 0 at bytes 4-7. *)
Lemma calculateChecksum_sequence_overflow_witness :
  calculateChecksum (map byte_of_Z [0; 0; 0; 0; 0; 0; 0; 0])
    (set_package_no 4294967295 (ISPLoader_init []))
  = (Ret false, set_package_no 4294967295 (ISPLoader_init [])).
Proof.
  apply (calculateChecksum_sequence_overflow
           (set_package_no 4294967295 (ISPLoader_init []))).
  right. vm_compute. discriminate.
Defined.

(** ** Connect and sync *)

Lemma long_nonempty (resp : bytes) : (8 <= length resp)%nat -> nonempty resp = true.
Proof. destruct resp; cbn; [lia|reflexivity]. Qed.

(** X4: [connectMCU] on a connected session returns [True] and touches
    nothing.  Otherwise it sets the sequence number to 1, sends the connect
    packet, reads one line, and returns the new connection status, which
    is true exactly when the answer has at least 8 bytes, checksum 175
    (0xAE + 1) and echoed sequence number 2; the port timeout is left at
    0.5 s after a success and at 0.01 s after a failure. *)
Theorem connectMCU_result (s : ISPLoader) :
  (mcu_connect_status s = true -> connectMCU s = (Ret PyTrue, s))
  /\ (mcu_connect_status s = false ->
      exists s',
        connectMCU s = (Ret (of_bool (mcu_connect_status s')), s')
        /\ package_no s' = 1
        /\ log (isp_serial s')
           = log (isp_serial s)
             ++ [EvWrite (map byte_of_Z (request CMD_CONNECT 1));
                 EvReadline (next_answer (isp_serial s))]
        /\ (mcu_connect_status s' = true <->
            (8 <= length (next_answer (isp_serial s)))%nat
            /\ response_checksum (next_answer (isp_serial s)) = 175
            /\ response_sequence (next_answer (isp_serial s)) = 2)
        /\ timeout (isp_serial s')
           = if mcu_connect_status s' then 500 else 10).
Proof.
  split; [apply connectMCU_connected|].
  intros Hc. rewrite (connectMCU_disconnected s Hc).
  assert (Hacc : accepts (request CMD_CONNECT 1) 1 (next_answer (isp_serial s)) = true
                 <-> (8 <= length (next_answer (isp_serial s)))%nat
                     /\ response_checksum (next_answer (isp_serial s)) = 175
                     /\ response_sequence (next_answer (isp_serial s)) = 2).
  { rewrite accepts_true_iff.
    change (sum_bytes (request CMD_CONNECT 1) mod 65536) with 175.
    change (1 + 1) with 2.
    split; intros (H1 & H2 & H3); repeat split; congruence. }
  destruct (nonempty _) eqn:Hne; cbn [andb].
  - destruct (accepts _ _ _) eqn:Ha.
    + exists (connect_attempted 500 true s).
      split; [reflexivity|]. split; [reflexivity|]. split; [reflexivity|].
      split; [|reflexivity].
      split; [intros _; apply Hacc; reflexivity|reflexivity].
    + exists (connect_attempted 10 false s).
      split; [reflexivity|]. split; [reflexivity|]. split; [reflexivity|].
      split; [|reflexivity].
      split; [discriminate|].
      intros H. apply Hacc in H. discriminate H.
  - exists (connect_attempted 10 false s).
    split; [reflexivity|]. split; [reflexivity|]. split; [reflexivity|].
    split; [|reflexivity].
    split; [discriminate|].
    intros (H1 & _). apply long_nonempty in H1. congruence.
Qed.

(** Witness for [connectMCU_result]: a connected session, and a fresh
    loader whose device gives the sample answer. *)
Lemma connectMCU_result_witness :
  connectMCU silent_session = (Ret PyTrue, silent_session)
  /\ exists s',
       connectMCU (ISPLoader_init [ans_connect])
       = (Ret (of_bool (mcu_connect_status s')), s')
       /\ package_no s' = 1
       /\ log (isp_serial s')
          = log (isp_serial (ISPLoader_init [ans_connect]))
            ++ [EvWrite (map byte_of_Z (request CMD_CONNECT 1));
                EvReadline (next_answer (isp_serial (ISPLoader_init [ans_connect])))]
       /\ (mcu_connect_status s' = true <->
           (8 <= length (next_answer (isp_serial (ISPLoader_init [ans_connect]))))%nat
           /\ response_checksum
                (next_answer (isp_serial (ISPLoader_init [ans_connect]))) = 175
           /\ response_sequence
                (next_answer (isp_serial (ISPLoader_init [ans_connect]))) = 2)
       /\ timeout (isp_serial s')
          = if mcu_connect_status s' then 500 else 10.
Proof.
  split.
  - apply (proj1 (connectMCU_result silent_session)). reflexivity.
  - apply (proj2 (connectMCU_result (ISPLoader_init [ans_connect]))). reflexivity.
Defined.

(** X5: on a connected session [syncMCU] returns [True] exactly when the
    answer has at least 8 bytes, checksum 166 (0xA4 + 1 + 1) and echoed
    sequence number 2. *)
Theorem syncMCU_accepts (s : ISPLoader) :
  mcu_connect_status s = true ->
  (fst (syncMCU s) = Ret PyTrue <->
   (8 <= length (next_answer (isp_serial s)))%nat
   /\ response_checksum (next_answer (isp_serial s)) = 166
   /\ response_sequence (next_answer (isp_serial s)) = 2).
Proof.
  intros Hc. rewrite (syncMCU_connected s Hc).
  assert (Hacc : accepts sync_request 1 (next_answer (isp_serial s)) = true
                 <-> (8 <= length (next_answer (isp_serial s)))%nat
                     /\ response_checksum (next_answer (isp_serial s)) = 166
                     /\ response_sequence (next_answer (isp_serial s)) = 2).
  { rewrite accepts_true_iff.
    change (sum_bytes sync_request mod 65536) with 166.
    change (1 + 1) with 2.
    split; intros (H1 & H2 & H3); repeat split; congruence. }
  destruct (nonempty _) eqn:Hne.
  - destruct (accepts _ _ _) eqn:Ha; cbn [fst]; split.
    + intros _. apply Hacc. reflexivity.
    + reflexivity.
    + discriminate.
    + intros H. apply Hacc in H. discriminate H.
  - cbn [fst]. split; [discriminate|].
    intros (H1 & _). apply long_nonempty in H1. congruence.
Qed.

(** Witness for [syncMCU_accepts]: the sample dialogue after connect. *)
Lemma syncMCU_accepts_witness :
  fst (syncMCU (snd (connectMCU (ISPLoader_init [ans_connect; ans_sync]))))
  = Ret PyTrue.
Proof.
  apply (proj2 (syncMCU_accepts
                  (snd (connectMCU (ISPLoader_init [ans_connect; ans_sync])))
                  ltac:(reflexivity))).
  vm_compute. repeat split. lia.
Defined.

(** ** Reading the fields of an accepted answer *)

Lemma item_run resp i s :
  (i < length resp)%nat -> item resp i s = (Ret (byte_val (nth i resp x00)), s).
Proof.
  intros H. unfold item.
  destruct (nth_lookup_or_length resp i x00) as [->|Hge]; [reflexivity|lia].
Qed.

Lemma item_short resp i s :
  (length resp <= i)%nat -> item resp i s = (Raise IndexError, s).
Proof.
  intros H. unfold item. rewrite (lookup_ge_None_2 resp i H). reflexivity.
Qed.

(** [b0 | (b1 << 8) | (b2 << 16) | (b3 << 24)] on four bytes. *)
Lemma lor32_le b0 b1 b2 b3 :
  0 <= b0 < 256 -> 0 <= b1 < 256 -> 0 <= b2 < 256 ->
  Z.lor (Z.lor (Z.lor b0 (Z.shiftl b1 8)) (Z.shiftl b2 16)) (Z.shiftl b3 24)
  = b0 + 256 * b1 + 65536 * b2 + 16777216 * b3.
Proof.
  intros H0 H1 H2. rewrite !Z.shiftl_mul_pow2 by lia.
  rewrite (lor_low_high 8) by lia.
  rewrite (lor_low_high 16) by lia.
  rewrite (lor_low_high 24) by lia. lia.
Qed.

Lemma word_at_run resp i s :
  (i + 4 <= length resp)%nat ->
  word_at resp i s = (Ret (response_word resp i), s).
Proof.
  intros H. unfold word_at.
  rewrite (bind_run _ _ _ _ _ (item_run resp i s ltac:(lia))).
  rewrite (bind_run _ _ _ _ _ (item_run resp (i + 1) s ltac:(lia))).
  rewrite (bind_run _ _ _ _ _ (item_run resp (i + 2) s ltac:(lia))).
  rewrite (bind_run _ _ _ _ _ (item_run resp (i + 3) s ltac:(lia))).
  unfold ret, response_word.
  rewrite lor32_le by apply byte_val_range. reflexivity.
Qed.

Lemma word_at_short resp i s :
  (length resp < i + 4)%nat -> word_at resp i s = (Raise IndexError, s).
Proof.
  intros H. unfold word_at.
  destruct (decide (i < length resp)%nat) as [H0|H0];
    [rewrite (bind_run _ _ _ _ _ (item_run resp i s H0))
    |apply bind_raise, item_short; lia].
  destruct (decide (i + 1 < length resp)%nat) as [H1|H1];
    [rewrite (bind_run _ _ _ _ _ (item_run resp (i + 1) s H1))
    |apply bind_raise, item_short; lia].
  destruct (decide (i + 2 < length resp)%nat) as [H2|H2];
    [rewrite (bind_run _ _ _ _ _ (item_run resp (i + 2) s H2))
    |apply bind_raise, item_short; lia].
  apply bind_raise, item_short. lia.
Qed.

(** X6: when [calculateChecksum] accepts the answer, [readDeviceIDMCU]
    stores the little-endian 32-bit value at bytes 8-11 as the device id
    and returns [True]; an accepted answer shorter than 12 bytes makes it
    raise [IndexError], the device id unchanged. *)
Theorem readDeviceIDMCU_accepted (s : ISPLoader) :
  mcu_connect_status s = true ->
  fst (calculateChecksum (next_answer (isp_serial s))
         (transacted CMD_GET_DEVICEID s)) = Ret true ->
  ((12 <= length (next_answer (isp_serial s)))%nat ->
   readDeviceIDMCU s
   = (Ret PyTrue,
      set_device_id (response_word (next_answer (isp_serial s)) 8)
        (transacted CMD_GET_DEVICEID s)))
  /\ ((length (next_answer (isp_serial s)) < 12)%nat ->
      readDeviceIDMCU s = (Raise IndexError, transacted CMD_GET_DEVICEID s)).
Proof.
  intros Hc Hacc. rewrite calculateChecksum_run in Hacc.
  cbn [fst] in Hacc. injection Hacc as Hacc.
  assert (Hne : nonempty (next_answer (isp_serial s)) = true).
  { apply accepts_true_iff in Hacc as [H8 _]. apply long_nonempty, H8. }
  change readDeviceIDMCU with (run_command CmdReadDeviceID).
  open_plain Hc. rewrite Hne, bind_calculateChecksum.
  change (accepts (isp_buffer (transacted ?k ?t)) _ ?r)
    with (accepts (request k (package_no t + 2)) (package_no t + 2) r).
  change (accepts (isp_buffer (transacted ?k ?t)) _ ?r)
    with (accepts (request k (package_no t + 2)) (package_no t + 2) r) in Hacc.
  rewrite Hacc.
  split; intros Hlen.
  - rewrite (bind_run _ _ _ _ _ (word_at_run (next_answer (isp_serial s)) 8 _ ltac:(lia))). reflexivity.
  - apply bind_raise, word_at_short. lia.
Qed.

(** X7: when [calculateChecksum] accepts the answer, [readConfigMCU]
    stores the little-endian 32-bit values at bytes 8-11 and 12-15 as the
    two config words and returns [True]; on an accepted answer of 12 to 15
    bytes it raises [IndexError] after it has overwritten the first config
    word, and on a shorter one before it has stored anything. *)
Theorem readConfigMCU_accepted (s : ISPLoader) :
  mcu_connect_status s = true ->
  fst (calculateChecksum (next_answer (isp_serial s))
         (transacted CMD_READ_CONFIG s)) = Ret true ->
  ((16 <= length (next_answer (isp_serial s)))%nat ->
   readConfigMCU s
   = (Ret PyTrue,
      set_config_1 (response_word (next_answer (isp_serial s)) 12)
        (set_config_0 (response_word (next_answer (isp_serial s)) 8)
           (transacted CMD_READ_CONFIG s))))
  /\ ((12 <= length (next_answer (isp_serial s)) < 16)%nat ->
      readConfigMCU s
      = (Raise IndexError,
         set_config_0 (response_word (next_answer (isp_serial s)) 8)
           (transacted CMD_READ_CONFIG s)))
  /\ ((length (next_answer (isp_serial s)) < 12)%nat ->
      readConfigMCU s = (Raise IndexError, transacted CMD_READ_CONFIG s)).
Proof.
  intros Hc Hacc. rewrite calculateChecksum_run in Hacc.
  cbn [fst] in Hacc. injection Hacc as Hacc.
  assert (Hne : nonempty (next_answer (isp_serial s)) = true).
  { apply accepts_true_iff in Hacc as [H8 _]. apply long_nonempty, H8. }
  change readConfigMCU with (run_command CmdReadConfig).
  open_plain Hc. rewrite Hne, bind_calculateChecksum.
  change (accepts (isp_buffer (transacted ?k ?t)) _ ?r)
    with (accepts (request k (package_no t + 2)) (package_no t + 2) r).
  change (accepts (isp_buffer (transacted ?k ?t)) _ ?r)
    with (accepts (request k (package_no t + 2)) (package_no t + 2) r) in Hacc.
  rewrite Hacc.
  split; [|split]; intros Hlen.
  - rewrite (bind_run _ _ _ _ _ (word_at_run (next_answer (isp_serial s)) 8 _ ltac:(lia))).
    rewrite bind_modify.
    rewrite (bind_run _ _ _ _ _ (word_at_run (next_answer (isp_serial s)) 12 _ ltac:(lia))).
    reflexivity.
  - rewrite (bind_run _ _ _ _ _ (word_at_run (next_answer (isp_serial s)) 8 _ ltac:(lia))).
    rewrite bind_modify.
    apply bind_raise, word_at_short. lia.
  - apply bind_raise, word_at_short. lia.
Qed.

(** X8: when [calculateChecksum] accepts the answer,
    [readFirmwareVersionMCU] stores byte 8 as the firmware version and
    returns [True]; an accepted answer of exactly 8 bytes makes it raise
    [IndexError]. *)
Theorem readFirmwareVersionMCU_accepted (s : ISPLoader) :
  mcu_connect_status s = true ->
  fst (calculateChecksum (next_answer (isp_serial s))
         (transacted CMD_GET_FWVER s)) = Ret true ->
  ((9 <= length (next_answer (isp_serial s)))%nat ->
   readFirmwareVersionMCU s
   = (Ret PyTrue,
      set_firmware_version (byte_val (nth 8 (next_answer (isp_serial s)) x00))
        (transacted CMD_GET_FWVER s)))
  /\ ((length (next_answer (isp_serial s)) < 9)%nat ->
      readFirmwareVersionMCU s = (Raise IndexError, transacted CMD_GET_FWVER s)).
Proof.
  intros Hc Hacc. rewrite calculateChecksum_run in Hacc.
  cbn [fst] in Hacc. injection Hacc as Hacc.
  assert (Hne : nonempty (next_answer (isp_serial s)) = true).
  { apply accepts_true_iff in Hacc as [H8 _]. apply long_nonempty, H8. }
  change readFirmwareVersionMCU with (run_command CmdReadFirmwareVersion).
  open_plain Hc. rewrite Hne, bind_calculateChecksum.
  change (accepts (isp_buffer (transacted ?k ?t)) _ ?r)
    with (accepts (request k (package_no t + 2)) (package_no t + 2) r).
  change (accepts (isp_buffer (transacted ?k ?t)) _ ?r)
    with (accepts (request k (package_no t + 2)) (package_no t + 2) r) in Hacc.
  rewrite Hacc.
  split; intros Hlen.
  - rewrite (bind_run _ _ _ _ _ (item_run (next_answer (isp_serial s)) 8 _ ltac:(lia))). reflexivity.
  - apply bind_raise, item_short. lia.
Qed.

(** Witness for [readDeviceIDMCU_accepted]: an answer carrying the id
    0xDA005A00, and the same answer cut after its eight header bytes. *)
Lemma readDeviceIDMCU_accepted_witness :
  readDeviceIDMCU
    (session_with [map byte_of_Z [180; 0; 0; 0; 4; 0; 0; 0; 0x00; 0x5A; 0x00; 0xDA]])
  = (Ret PyTrue,
     set_device_id 0xDA005A00
       (transacted CMD_GET_DEVICEID
          (session_with
             [map byte_of_Z [180; 0; 0; 0; 4; 0; 0; 0; 0x00; 0x5A; 0x00; 0xDA]])))
  /\ fst (readDeviceIDMCU
            (session_with [map byte_of_Z [180; 0; 0; 0; 4; 0; 0; 0]]))
     = Raise IndexError.
Proof.
  split.
  - rewrite (proj1 (readDeviceIDMCU_accepted
                      (session_with
                         [map byte_of_Z
                            [180; 0; 0; 0; 4; 0; 0; 0; 0x00; 0x5A; 0x00; 0xDA]])
                      ltac:(reflexivity) ltac:(vm_compute; reflexivity))
               ltac:(vm_compute; lia)).
    reflexivity.
  - rewrite (proj2 (readDeviceIDMCU_accepted
                      (session_with [map byte_of_Z [180; 0; 0; 0; 4; 0; 0; 0]])
                      ltac:(reflexivity) ltac:(vm_compute; reflexivity))
               ltac:(vm_compute; lia)).
    reflexivity.
Defined.

(** Witness for [readConfigMCU_accepted]: answers of 16, 12 and 8 bytes. *)
Lemma readConfigMCU_accepted_witness :
  (fst (readConfigMCU
          (session_with
             [map byte_of_Z [165; 0; 0; 0; 4; 0; 0; 0; 0xFF; 0xFF; 0xFF; 0xFE;
                             0xFF; 0xFF; 0xFF; 0xFF]]))
   = Ret PyTrue)
  /\ (fst (readConfigMCU
             (session_with
                [map byte_of_Z [165; 0; 0; 0; 4; 0; 0; 0; 0xFF; 0xFF; 0xFF; 0xFE]]))
      = Raise IndexError
      /\ config_0 (snd (readConfigMCU
             (session_with
                [map byte_of_Z [165; 0; 0; 0; 4; 0; 0; 0; 0xFF; 0xFF; 0xFF; 0xFE]])))
         = 0xFEFFFFFF)
  /\ (fst (readConfigMCU
             (session_with [map byte_of_Z [165; 0; 0; 0; 4; 0; 0; 0]]))
      = Raise IndexError).
Proof.
  split; [|split].
  - rewrite (proj1 (readConfigMCU_accepted
                      (session_with
                         [map byte_of_Z [165; 0; 0; 0; 4; 0; 0; 0; 0xFF; 0xFF; 0xFF;
                                         0xFE; 0xFF; 0xFF; 0xFF; 0xFF]])
                      ltac:(reflexivity) ltac:(vm_compute; reflexivity))
               ltac:(vm_compute; lia)).
    reflexivity.
  - rewrite (proj1 (proj2 (readConfigMCU_accepted
                      (session_with
                         [map byte_of_Z [165; 0; 0; 0; 4; 0; 0; 0; 0xFF; 0xFF; 0xFF;
                                         0xFE]])
                      ltac:(reflexivity) ltac:(vm_compute; reflexivity)))
               ltac:(vm_compute; lia)).
    split; reflexivity.
  - rewrite (proj2 (proj2 (readConfigMCU_accepted
                      (session_with [map byte_of_Z [165; 0; 0; 0; 4; 0; 0; 0]])
                      ltac:(reflexivity) ltac:(vm_compute; reflexivity)))
               ltac:(vm_compute; lia)).
    reflexivity.
Defined.

(** Witness for [readFirmwareVersionMCU_accepted]: the sample answer with
    version 0x21, and the same answer without its ninth byte. *)
Lemma readFirmwareVersionMCU_accepted_witness :
  readFirmwareVersionMCU (session_with [ans_fwver])
  = (Ret PyTrue,
     set_firmware_version 0x21 (transacted CMD_GET_FWVER (session_with [ans_fwver])))
  /\ fst (readFirmwareVersionMCU
            (session_with [map byte_of_Z [169; 0; 0; 0; 4; 0; 0; 0]]))
     = Raise IndexError.
Proof.
  split.
  - rewrite (proj1 (readFirmwareVersionMCU_accepted (session_with [ans_fwver])
                      ltac:(reflexivity) ltac:(vm_compute; reflexivity))
               ltac:(vm_compute; lia)).
    reflexivity.
  - rewrite (proj2 (readFirmwareVersionMCU_accepted
                      (session_with [map byte_of_Z [169; 0; 0; 0; 4; 0; 0; 0]])
                      ltac:(reflexivity) ltac:(vm_compute; reflexivity))
               ltac:(vm_compute; lia)).
    reflexivity.
Defined.

(** ** Side effects of failed commands *)

(** X9: [eraseAllMCU] raises the port timeout to 5 s before it sends; it
    puts the timeout back to 0.5 s only when the answer is accepted, so a
    failed erase leaves the port at 5 s. *)
Theorem eraseAllMCU_timeout (s : ISPLoader) :
  mcu_connect_status s = true ->
  exists r s',
    eraseAllMCU s = (Ret r, s')
    /\ timeout (isp_serial s') = if truthy r then 500 else 5000.
Proof.
  intros Hc. change eraseAllMCU with (run_command CmdEraseAll). open_plain Hc.
  destruct (nonempty _); [|eexists _, _; split; reflexivity].
  rewrite bind_calculateChecksum.
  destruct (accepts _ _ _); eexists _, _; split; reflexivity.
Qed.

(** Witness for [eraseAllMCU_timeout]: erase on a silent device. *)
Lemma eraseAllMCU_timeout_witness :
  exists r s',
    eraseAllMCU silent_session = (Ret r, s')
    /\ timeout (isp_serial s') = if truthy r then 500 else 5000.
Proof. apply (eraseAllMCU_timeout silent_session). reflexivity. Defined.

(** X10: on a connected session every command other than connect and
    sync, whatever the answer and also when it ends in [False], [None] or
    an [IndexError], has advanced the sequence number by 2, written
    exactly one packet (its code at byte 0, the new sequence number at
    bytes 4-7, zeroes elsewhere) and read exactly one line. *)
Theorem plain_command_always_advances (c : command) (s : ISPLoader) :
  is_plain c = true ->
  mcu_connect_status s = true ->
  package_no (snd (run_command c s)) = package_no s + 2
  /\ log (isp_serial (snd (run_command c s)))
     = log (isp_serial s)
       ++ [EvWrite (map byte_of_Z (request (command_code c) (package_no s + 2)));
           EvReadline (next_answer (isp_serial s))]
  /\ rx (isp_serial (snd (run_command c s))) = tl (rx (isp_serial s)).
Proof.
  intros Hp Hc.
  destruct (plain_command_effects c s Hp Hc) as (Hpn & _ & Hlog).
  split; [exact Hpn|]. split; [exact Hlog|].
  destruct c; try discriminate Hp; open_plain Hc;
    try (destruct (nonempty _); [|reflexivity];
         rewrite bind_calculateChecksum; destruct (accepts _ _ _); [|reflexivity]);
    repeat (read_cases; [try mstep|reflexivity]);
    reflexivity.
Qed.

(** Witness for [plain_command_always_advances]: read-config on a silent
    device. *)
Lemma plain_command_always_advances_witness :
  package_no (snd (run_command CmdReadConfig silent_session))
  = package_no silent_session + 2
  /\ log (isp_serial (snd (run_command CmdReadConfig silent_session)))
     = log (isp_serial silent_session)
       ++ [EvWrite (map byte_of_Z
                      (request (command_code CmdReadConfig)
                         (package_no silent_session + 2)));
           EvReadline (next_answer (isp_serial silent_session))]
  /\ rx (isp_serial (snd (run_command CmdReadConfig silent_session)))
     = tl (rx (isp_serial silent_session)).
Proof.
  apply (plain_command_always_advances CmdReadConfig silent_session);
    reflexivity.
Defined.

(** X11: on a session that is not connected, every command but connect
    returns [False] at once: no packet is built, nothing is written or
    read, and no attribute of the session changes. *)
Theorem off_line_command_is_noop (c : command) (s : ISPLoader) :
  c <> CmdConnect ->
  mcu_connect_status s = false ->
  run_command c s = (Ret PyFalse, s).
Proof. apply command_disconnected. Qed.

(** Witness for [off_line_command_is_noop]: erase-all on a fresh loader. *)
Lemma off_line_command_is_noop_witness :
  run_command CmdEraseAll (ISPLoader_init []) = (Ret PyFalse, ISPLoader_init []).
Proof.
  apply (off_line_command_is_noop CmdEraseAll (ISPLoader_init []));
    [discriminate|reflexivity].
Defined.

(** ** The header of the first upload frame *)

Lemma buffer_set_run i v s :
  (i < length (isp_buffer s))%nat ->
  buffer_set i v s = (Ret tt, set_isp_buffer (<[i := v]> (isp_buffer s)) s).
Proof.
  intros H. unfold buffer_set. apply Nat.ltb_lt in H. rewrite H. reflexivity.
Qed.

Lemma buffer_set_raise i v s :
  (length (isp_buffer s) <= i)%nat ->
  buffer_set i v s = (Raise IndexError, s).
Proof.
  intros H. unfold buffer_set. apply Nat.ltb_ge in H. rewrite H. reflexivity.
Qed.

Lemma data_header_words pn address file_len tail :
  nth 0 (data_header pn address file_len ++ tail) 0 = CMD_UPDATE_APROM
  /\ buffer_word (data_header pn address file_len ++ tail) 4 = pn mod 2 ^ 32
  /\ buffer_word (data_header pn address file_len ++ tail) 8 = address mod 2 ^ 32
  /\ buffer_word (data_header pn address file_len ++ tail) 12
     = file_len mod 2 ^ 32.
Proof.
  rewrite <- !le_bytes_mod. repeat split.
Qed.

(** X12: on a connected session and for a buffer size of at least 16,
    [writeDataToBuffer] advances the sequence number by 2 and leaves a
    buffer of that size: update-APROM at byte 0, then the new sequence
    number, the address and the file length as little-endian 32-bit values
    (each modulo 2^32) at bytes 4-7, 8-11 and 12-15, zeroes elsewhere;
    nothing is sent.  On a session that is not connected it does nothing. *)
Theorem writeDataToBuffer_header (file_len buffer_size address : Z)
    (s : ISPLoader) :
  (mcu_connect_status s = true ->
   16 <= buffer_size ->
   writeDataToBuffer file_len buffer_size address s
   = (Ret tt,
      set_isp_buffer
        (data_header (package_no s + 2) address file_len
         ++ replicate (Z.to_nat buffer_size - 16) 0)
        (set_package_no (package_no s + 2) s))
   /\ length (data_header (package_no s + 2) address file_len
              ++ replicate (Z.to_nat buffer_size - 16) 0)
      = Z.to_nat buffer_size
   /\ buffer_word (data_header (package_no s + 2) address file_len
                   ++ replicate (Z.to_nat buffer_size - 16) 0) 4
      = (package_no s + 2) mod 2 ^ 32
   /\ buffer_word (data_header (package_no s + 2) address file_len
                   ++ replicate (Z.to_nat buffer_size - 16) 0) 8
      = address mod 2 ^ 32
   /\ buffer_word (data_header (package_no s + 2) address file_len
                   ++ replicate (Z.to_nat buffer_size - 16) 0) 12
      = file_len mod 2 ^ 32)
  /\ (mcu_connect_status s = false ->
      writeDataToBuffer file_len buffer_size address s = (Ret tt, s)).
Proof.
  split.
  - intros Hc Hsize.
    destruct (data_header_words (package_no s + 2) address file_len
                (replicate (Z.to_nat buffer_size - 16) 0)) as (_ & H4 & H8 & H12).
    split; [|split; [|split; [|split]]]; try assumption.
    + unfold writeDataToBuffer, appendBufferEmptyValues, advance_package_no.
      rewrite bind_gets, Hc. do 3 mstep.
      rewrite bind_updatePackageNumber by len_ok. proj.
      do 7 mstep.
      rewrite buffer_set_run by len_ok. proj.
      assert (Hrep : replicate (Z.to_nat buffer_size) 0
                     = replicate 16 0 ++ replicate (Z.to_nat buffer_size - 16) 0).
      { rewrite <- replicate_add. f_equal. lia. }
      rewrite Hrep. reflexivity.
    + rewrite length_app, length_replicate. cbn [data_header length]. lia.
  - intros Hc. unfold writeDataToBuffer. rewrite bind_gets, Hc. reflexivity.
Qed.

(** Witness for [writeDataToBuffer_header]: the call [writeBinaryMCU]
    makes for an image of 105 bytes, on line and off line. *)
Lemma writeDataToBuffer_header_witness :
  writeDataToBuffer 105 16 0 upload_session
  = (Ret tt,
     set_isp_buffer (data_header 3 0 105) (set_package_no 3 upload_session))
  /\ writeDataToBuffer 105 16 0 (ISPLoader_init []) = (Ret tt, ISPLoader_init []).
Proof.
  split.
  - destruct (proj1 (writeDataToBuffer_header 105 16 0 upload_session)
                ltac:(reflexivity) ltac:(lia)) as [Hrun _].
    rewrite Hrun. reflexivity.
  - apply (proj2 (writeDataToBuffer_header 105 16 0 (ISPLoader_init []))).
    reflexivity.
Defined.

(** ** What the upload puts on the wire *)

(** The [for] loop seen from the frame being filled.  The buffer holds a
    header [hdr] and the image bytes [d]; [pad] stands for what will be
    appended to the last frame.  The frames written, followed by the
    frame left in the buffer, carry [d] and then the bytes [rest] in
    order; every frame written cost one answer and advanced the sequence
    number by 2; and the first of them is the buffer filled up to 64. *)
Lemma program_loop_frames pad rest : forall s hdr d,
  9 <= start_byte_len s <= 64 ->
  isp_buffer s = hdr ++ map byte_val d ->
  is_bytes hdr ->
  exists s' new,
    program_loop rest s = (Ret tt, s')
    /\ log (isp_serial s') = log (isp_serial s) ++ new
    /\ frames_data (length hdr)
         (packets new ++ [map byte_of_Z (isp_buffer s') ++ pad])
       = d ++ rest ++ pad
    /\ package_no s' = package_no s + 2 * Z.of_nat (length (packets new))
    /\ rx (isp_serial s') = drop (length (packets new)) (rx (isp_serial s))
    /\ length new = (2 * length (packets new))%nat
    /\ head (packets new ++ [map byte_of_Z (isp_buffer s') ++ pad])
       = Some (map byte_of_Z hdr ++ d
               ++ take (Z.to_nat (64 - start_byte_len s)) rest
               ++ (if decide (length rest <= Z.to_nat (64 - start_byte_len s))%nat
                   then pad else [])).
Proof.
  induction rest as [|b rest IH]; intros s hdr d Hsbl Hbuf Hhdr.
  - exists s, []. cbn [program_loop packets app length].
    rewrite app_nil_r, Hbuf, map_app, map_byte_of_Z_val.
    split; [reflexivity|]. split; [reflexivity|].
    split.
    { cbn [frames_data]. rewrite app_nil_r, <- app_assoc.
      rewrite drop_app_length'; [reflexivity|symmetry; apply length_map]. }
    split; [lia|]. split; [reflexivity|]. split; [reflexivity|].
    cbn [head]. rewrite take_nil. cbn [app].
    destruct (decide _) as [_|Hn]; [|cbn [length] in Hn; lia].
    rewrite <- app_assoc. reflexivity.
  - assert (Hbytes : is_bytes (isp_buffer s)).
    { rewrite Hbuf. apply is_bytes_app; [assumption|apply is_bytes_val]. }
    cbn [program_loop].
    rewrite (bind_run _ _ _ _ _ (program_byte_run b s ltac:(lia) Hbytes)).
    unfold program_step.
    destruct (Z.eqb_spec (start_byte_len s) 64) as [Heq|Hne].
    + match goal with |- context [program_loop rest ?st] => set (s1 := st) end.
      destruct (IH s1 (frame_header (package_no s + 2)) [b]
                  ltac:(cbn; lia) ltac:(reflexivity)
                  (frame_header_bytes _))
        as (s' & new & Hrun & Hlog & Hdata & Hpn & Hrx & Hlen & _).
      exists s',
        ([EvWrite (map byte_of_Z (isp_buffer s));
          EvRead 64 (take 64 (next_answer (isp_serial s)))] ++ new).
      split; [exact Hrun|].
      split; [rewrite Hlog; unfold s1; proj; rewrite <- app_assoc; reflexivity|].
      cbn [app packets length frames_data head].
      split.
      { change (length (frame_header (package_no s + 2))) with 8%nat in Hdata.
        rewrite Hdata, Hbuf, map_app, map_byte_of_Z_val.
        rewrite drop_app_length'; [reflexivity|symmetry; apply length_map]. }
      split; [rewrite Hpn; unfold s1; proj; lia|].
      split; [rewrite Hrx; unfold s1; proj;
             destruct (rx (isp_serial s)); [cbn [tl]; rewrite !drop_nil|]; reflexivity|].
      split; [lia|].
      rewrite Heq. change (Z.to_nat (64 - 64)) with 0%nat. rewrite take_0.
      destruct (decide _) as [Hn|_]; [cbn [length] in Hn; lia|].
      rewrite Hbuf, map_app, map_byte_of_Z_val, app_nil_r. reflexivity.
    + match goal with |- context [program_loop rest ?st] => set (s1 := st) end.
      destruct (IH s1 hdr (d ++ [b])
                  ltac:(unfold s1; cbn; lia)
                  ltac:(unfold s1; proj; rewrite Hbuf, map_app, <- app_assoc; reflexivity)
                  Hhdr)
        as (s' & new & Hrun & Hlog & Hdata & Hpn & Hrx & Hlen & Hhead).
      exists s', new.
      split; [exact Hrun|]. split; [exact Hlog|].
      split; [rewrite Hdata, <- app_assoc; reflexivity|].
      split; [exact Hpn|]. split; [exact Hrx|]. split; [exact Hlen|].
      unfold s1 in Hhead.
      cbn [start_byte_len set_start_byte_len set_isp_buffer] in Hhead.
      rewrite Hhead. clear Hhead.
      replace (Z.to_nat (64 - start_byte_len s))
        with (S (Z.to_nat (64 - (start_byte_len s + 1)))) by lia.
      cbn [take length].
      rewrite <- !app_assoc. cbn [app].
      destruct (decide _) as [H1|H1]; destruct (decide _) as [H2|H2];
        try reflexivity; exfalso; lia.
Qed.

Lemma hd_drop_nth (l : list bytes) n : hd [] (drop n l) = nth n l [].
Proof.
  revert l. induction n as [|n IH]; intros [|x l]; try reflexivity.
  cbn [drop nth]. apply IH.
Qed.

Lemma tl_drop (l : list bytes) n : tl (drop n l) = drop (S n) l.
Proof.
  revert l. induction n as [|n IH]; intros [|x l]; try reflexivity.
  cbn [drop]. rewrite IH. reflexivity.
Qed.

(** The upload in terms of its frames, on line ([hdr0] is the 16-byte
    header) or off line ([hdr0] is empty). *)
Lemma writeBinaryMCU_frames fuel file_content s :
  (64 <= fuel)%nat ->
  let hdr0 := if mcu_connect_status s
              then upload_header (package_no s + 2)
                     (Z.of_nat (length file_content))
              else [] in
  exists r s' new k,
    writeBinaryMCU fuel file_content s = (Ret r, s')
    /\ log (isp_serial s') = log (isp_serial s) ++ new
    /\ (k <= 55)%nat
    /\ frames_data (length hdr0) (packets new) = file_content ++ replicate k x00
    /\ length new = (2 * length (packets new))%nat
    /\ (1 <= length (packets new))%nat
    /\ rx (isp_serial s') = drop (length (packets new)) (rx (isp_serial s))
    /\ package_no s'
       = package_no s
         + 2 * (Z.of_nat (length (packets new))
                - if mcu_connect_status s then 0 else 1)
    /\ last (packets new) = Some (map byte_of_Z (isp_buffer s'))
    /\ r = of_bool
             (accepts (isp_buffer s') (package_no s')
                (take 64 (nth (length (packets new) - 1)
                            (rx (isp_serial s)) [])))
    /\ head (packets new)
       = Some (map byte_of_Z hdr0 ++ take 48 file_content
               ++ replicate (48 - length file_content) x00).
Proof.
  intros Hfuel hdr0.
  destruct (writeBinaryMCU_run fuel file_content s Hfuel) as (s1 & Hloop & Hrun).
  set (s0 := upload_start (Z.of_nat (length file_content)) s) in *.
  assert (Hh0 : is_bytes hdr0).
  { unfold hdr0. destruct (mcu_connect_status s);
      [apply upload_header_bytes|constructor]. }
  assert (Hbuf0 : isp_buffer s0 = hdr0 ++ map byte_val []).
  { unfold s0, upload_start, hdr0. proj. rewrite app_nil_r. reflexivity. }
  assert (Hb0 : is_bytes (isp_buffer s0)).
  { rewrite Hbuf0, app_nil_r. exact Hh0. }
  destruct (program_loop_spec file_content s0 ltac:(cbn; lia) Hb0)
    as (s1' & new0 & Hloop' & Hlog0 & Hcount & Hsbl & _).
  rewrite Hloop in Hloop'. injection Hloop' as <-.
  destruct (program_loop_frames
              (replicate (Z.to_nat (64 - start_byte_len s1)) x00)
              file_content s0 hdr0 [] ltac:(cbn; lia) Hbuf0 Hh0)
    as (s1' & new & Hloop' & Hlog & Hdata & Hpn & Hrx & Hlen & Hhead).
  rewrite Hloop in Hloop'. injection Hloop' as <-.
  rewrite Hlog in Hlog0. apply app_inv_head in Hlog0. subst new0.
  change (start_byte_len s0) with 16 in *.
  change (log (isp_serial s0)) with (log (isp_serial s)) in Hlog.
  change (rx (isp_serial s0)) with (rx (isp_serial s)) in Hrx.
  assert (Hfinal : map byte_of_Z
                     (isp_buffer s1
                      ++ replicate (Z.to_nat (64 - start_byte_len s1)) 0)
                   = map byte_of_Z (isp_buffer s1)
                     ++ replicate (Z.to_nat (64 - start_byte_len s1)) x00).
  { rewrite map_app, map_byte_of_Z_zeros. reflexivity. }
  exists (of_bool (accepts (isp_buffer (upload_end s1)) (package_no s1)
                     (take 64 (next_answer (isp_serial s1))))),
    (upload_end s1),
    (new ++ [EvWrite (map byte_of_Z
                        (isp_buffer s1
                         ++ replicate (Z.to_nat (64 - start_byte_len s1)) 0));
             EvRead 64 (take 64 (next_answer (isp_serial s1)))]),
    (Z.to_nat (64 - start_byte_len s1)).
  rewrite packets_app, !length_app. cbn [packets length].
  rewrite Hfinal.
  split; [exact Hrun|].
  split; [unfold upload_end; proj; rewrite Hlog, Hfinal, app_assoc; reflexivity|].
  split; [lia|]. split; [exact Hdata|]. split; [lia|]. split; [lia|].
  split.
  { unfold upload_end. proj. rewrite Hrx.
    replace (length (packets new) + 1)%nat with (S (length (packets new))) by lia.
    apply tl_drop. }
  split.
  { unfold upload_end. proj. rewrite Hpn. unfold s0, upload_start. proj.
    destruct (mcu_connect_status s); lia. }
  split.
  { rewrite last_snoc. unfold upload_end. proj. rewrite Hfinal. reflexivity. }
  split.
  { unfold next_answer. rewrite Hrx, hd_drop_nth.
    replace (length (packets new) + 1 - 1)%nat with (length (packets new)) by lia.
    reflexivity. }
  rewrite Hhead. cbn [app]. f_equal. f_equal.
  change (Z.to_nat (64 - 16)) with 48%nat. f_equal.
  destruct (decide _) as [Hle|Hgt].
  - f_equal. lia.
  - replace (48 - length file_content)%nat with 0%nat by lia. reflexivity.
Qed.

(** X13: the frames of an upload carry the image, whole and in order:
    taking the first frame without its header (16 bytes on a connected
    session, none otherwise) and every later frame without its 8 header
    bytes gives back the image followed by at most 55 zero bytes. *)
Theorem upload_carries_image (fuel : nat) (file_content : bytes)
    (s : ISPLoader) :
  (64 <= fuel)%nat ->
  exists r s' new k,
    writeBinaryMCU fuel file_content s = (Ret r, s')
    /\ log (isp_serial s') = log (isp_serial s) ++ new
    /\ (k <= 55)%nat
    /\ frames_data (if mcu_connect_status s then 16 else 0) (packets new)
       = file_content ++ replicate k x00.
Proof.
  intros Hfuel.
  destruct (writeBinaryMCU_frames fuel file_content s Hfuel)
    as (r & s' & new & k & Hrun & Hlog & Hk & Hdata & _).
  exists r, s', new, k. repeat split; try assumption.
  rewrite <- Hdata. destruct (mcu_connect_status s); reflexivity.
Qed.

(** Witness for [upload_carries_image]: an image of 105 bytes. *)
Lemma upload_carries_image_witness :
  exists r s' new k,
    writeBinaryMCU 64 (replicate 105 x01) upload_session = (Ret r, s')
    /\ log (isp_serial s') = log (isp_serial upload_session) ++ new
    /\ (k <= 55)%nat
    /\ frames_data (if mcu_connect_status upload_session then 16 else 0)
         (packets new)
       = replicate 105 x01 ++ replicate k x00.
Proof.
  apply (upload_carries_image 64 (replicate 105 x01) upload_session). lia.
Defined.

(** X14: the upload reads exactly one answer after each packet it writes
    and looks at the last one only: with n packets written, n answers are
    consumed, the sequence number has advanced by 2 per packet (one packet
    less off line, where no header was built), the buffer holds the last
    packet, and the result is [True] or [False] according to
    [calculateChecksum] on the first 64 bytes of answer number n; the
    n - 1 answers before it are dropped unchecked. *)
Theorem upload_checks_last_answer_only (fuel : nat) (file_content : bytes)
    (s : ISPLoader) :
  (64 <= fuel)%nat ->
  exists r s' new,
    writeBinaryMCU fuel file_content s = (Ret r, s')
    /\ log (isp_serial s') = log (isp_serial s) ++ new
    /\ length new = (2 * length (packets new))%nat
    /\ rx (isp_serial s') = drop (length (packets new)) (rx (isp_serial s))
    /\ package_no s'
       = package_no s
         + 2 * (Z.of_nat (length (packets new))
                - if mcu_connect_status s then 0 else 1)
    /\ last (packets new) = Some (map byte_of_Z (isp_buffer s'))
    /\ r = of_bool
             (accepts (isp_buffer s') (package_no s')
                (take 64 (nth (length (packets new) - 1)
                            (rx (isp_serial s)) []))).
Proof.
  intros Hfuel.
  destruct (writeBinaryMCU_frames fuel file_content s Hfuel)
    as (r & s' & new & k & Hrun & Hlog & _ & _ & Hlen & _ & Hrx & Hpn & Hlast
        & Hr & _).
  exists r, s', new. repeat split; assumption.
Qed.

(** Witness for [upload_checks_last_answer_only]: an image of 105 bytes. *)
Lemma upload_checks_last_answer_only_witness :
  exists r s' new,
    writeBinaryMCU 64 (replicate 105 x01) upload_session = (Ret r, s')
    /\ log (isp_serial s') = log (isp_serial upload_session) ++ new
    /\ length new = (2 * length (packets new))%nat
    /\ rx (isp_serial s')
       = drop (length (packets new)) (rx (isp_serial upload_session))
    /\ package_no s'
       = package_no upload_session
         + 2 * (Z.of_nat (length (packets new))
                - if mcu_connect_status upload_session then 0 else 1)
    /\ last (packets new) = Some (map byte_of_Z (isp_buffer s'))
    /\ r = of_bool
             (accepts (isp_buffer s') (package_no s')
                (take 64 (nth (length (packets new) - 1)
                            (rx (isp_serial upload_session)) []))).
Proof.
  apply (upload_checks_last_answer_only 64 (replicate 105 x01) upload_session).
  lia.
Defined.

(** X15: the first packet of an upload is the header (on a connected
    session: update-APROM, the advanced sequence number, address 0 and the
    image length; off line: nothing), then the first 48 bytes of the
    image, zero-padded when the image is shorter than 48 bytes. *)
Theorem upload_first_frame (fuel : nat) (file_content : bytes)
    (s : ISPLoader) :
  (64 <= fuel)%nat ->
  exists r s' new,
    writeBinaryMCU fuel file_content s = (Ret r, s')
    /\ log (isp_serial s') = log (isp_serial s) ++ new
    /\ head (packets new)
       = Some (map byte_of_Z
                 (if mcu_connect_status s
                  then upload_header (package_no s + 2)
                         (Z.of_nat (length file_content))
                  else [])
               ++ take 48 file_content
               ++ replicate (48 - length file_content) x00).
Proof.
  intros Hfuel.
  destruct (writeBinaryMCU_frames fuel file_content s Hfuel)
    as (r & s' & new & k & Hrun & Hlog & _ & _ & _ & _ & _ & _ & _ & _ & Hhead).
  exists r, s', new. repeat split; assumption.
Qed.

(** Witness for [upload_first_frame]: an image of 3 bytes. *)
Lemma upload_first_frame_witness :
  exists r s' new,
    writeBinaryMCU 64 [x01; x02; x03] upload_session = (Ret r, s')
    /\ log (isp_serial s') = log (isp_serial upload_session) ++ new
    /\ head (packets new)
       = Some (map byte_of_Z
                 (if mcu_connect_status upload_session
                  then upload_header (package_no upload_session + 2)
                         (Z.of_nat (length [x01; x02; x03]))
                  else [])
               ++ take 48 [x01; x02; x03]
               ++ replicate (48 - length [x01; x02; x03]) x00).
Proof.
  apply (upload_first_frame 64 [x01; x02; x03] upload_session). lia.
Defined.

(** Witness for [upload_packets_64]: an image of 105 bytes on a connected
    session. *)
Lemma upload_packets_64_witness :
  exists new,
    log (isp_serial (snd (writeBinaryMCU 64 (replicate 105 x01) upload_session)))
    = log (isp_serial upload_session) ++ new
    /\ Forall (fun p : bytes => length p = 64%nat) (packets new).
Proof.
  apply (upload_packets_64 64 (replicate 105 x01) upload_session);
    [lia|reflexivity].
Defined.

(** ** The retry loops on a silent device *)

Lemma connectMCU_silent s :
  mcu_connect_status s = false ->
  rx (isp_serial s) = [] ->
  connectMCU s = (Ret PyFalse, connect_attempted 10 false s)
  /\ mcu_connect_status (connect_attempted 10 false s) = false
  /\ rx (isp_serial (connect_attempted 10 false s)) = []
  /\ log (isp_serial (connect_attempted 10 false s))
     = log (isp_serial s) ++ silent_attempt.
Proof.
  intros Hc Hrx. rewrite (connectMCU_disconnected s Hc).
  unfold connect_attempted, silent_attempt, next_answer. proj. rewrite Hrx.
  repeat split.
Qed.

Lemma ceil_div_10_pos x : 0 < x -> ceil_div x 10 = ceil_div (x - 10) 10 + 1.
Proof.
  intros _. unfold ceil_div.
  replace (x + 10 - 1) with (x - 10 + 10 - 1 + 1 * 10) by lia.
  rewrite Z.div_add by lia. reflexivity.
Qed.

Lemma ceil_div_10_nonpos x : x <= 0 -> ceil_div x 10 <= 0.
Proof.
  intros H. unfold ceil_div.
  assert ((x + 10 - 1) / 10 < 1); [|lia].
  apply Z.div_lt_upper_bound; lia.
Qed.

Lemma ceil_div_10_ge x : 0 < x -> 1 <= ceil_div x 10.
Proof.
  intros H. unfold ceil_div. apply Z.div_le_lower_bound; lia.
Qed.

Lemma mcuLoadSoftware_loop_silent bf reset budget k :
  forall fuel erase tc d s,
    mcu_connect_status s = false ->
    rx (isp_serial s) = [] ->
    Z.to_nat (ceil_div (budget - tc) 10) = k ->
    (k < fuel)%nat ->
    exists s',
      mcuLoadSoftware_loop fuel bf reset budget erase tc d s = (Ret d, s')
      /\ mcu_connect_status s' = false
      /\ log (isp_serial s')
         = log (isp_serial s) ++ concat (replicate k silent_attempt).
Proof.
  induction k as [|k IH]; intros fuel erase tc d s Hc Hrx Hk Hfuel;
    (destruct fuel as [|fuel]; [lia|]); cbn [mcuLoadSoftware_loop].
  - destruct (Z.ltb_spec tc budget) as [Hlt|Hge].
    + pose proof (ceil_div_10_ge (budget - tc) ltac:(lia)). lia.
    + exists s. cbn [replicate concat]. rewrite app_nil_r. repeat split.
      exact Hc.
  - destruct (Z.ltb_spec tc budget) as [Hlt|Hge].
    + destruct (connectMCU_silent s Hc Hrx) as (Hrun & Hc1 & Hrx1 & Hlog1).
      unfold mcuLoadSoftware_body.
      rewrite bind_assoc, (bind_run _ _ _ _ _ Hrun). cbn [truthy].
      rewrite bind_ret.
      destruct (IH fuel erase (tc + 10) d (connect_attempted 10 false s)
                  Hc1 Hrx1) as (s' & Hloop & Hc' & Hlog').
      { rewrite (ceil_div_10_pos (budget - tc)) in Hk by lia.
        replace (budget - (tc + 10)) with (budget - tc - 10) by lia. lia. }
      { lia. }
      exists s'. split; [exact Hloop|]. split; [exact Hc'|].
      rewrite Hlog', Hlog1. cbn [replicate concat].
      rewrite <- app_assoc. reflexivity.
    + pose proof (ceil_div_10_nonpos (budget - tc) ltac:(lia)). lia.
Qed.

(** X19: on a device that never answers, [mcuLoadSoftware] makes exactly
    ceil(budget / 10) connection attempts (none for a budget of 0 or
    less), each one connect packet and one timed-out read, and returns the
    dictionary it started with: Program: Err and Timeout: str(budget). *)
Theorem mcuLoadSoftware_silent_device (fuel : nat) (bf : bytes)
    (port : string) (erase reset : bool) (budget : Z) :
  (Z.to_nat (ceil_div budget 10) < fuel)%nat ->
  exists s',
    mcuLoadSoftware fuel bf port erase reset budget []
    = (Ret (<["Timeout" := VStr (str budget)]>
              (<["Port" := VStr port]>
                 (<["Program" := VStr "Err"]>
                    (<["Bin File" := VStr "Available"]> ∅)))),
       s')
    /\ mcu_connect_status s' = false
    /\ log (isp_serial s')
       = concat (replicate (Z.to_nat (ceil_div budget 10)) silent_attempt).
Proof.
  intros Hfuel. unfold mcuLoadSoftware.
  apply (mcuLoadSoftware_loop_silent bf reset budget
           (Z.to_nat (ceil_div budget 10)) fuel erase 0 _ (ISPLoader_init []));
    try reflexivity; try assumption.
  rewrite Z.sub_0_r. reflexivity.
Qed.

(** Witness for [mcuLoadSoftware_silent_device]: the default budget of
    1000 gives 100 attempts. *)
Lemma mcuLoadSoftware_silent_device_witness :
  exists s',
    mcuLoadSoftware 101 [x01; x02; x03] "COM1" true true 1000 []
    = (Ret (<["Timeout" := VStr (str 1000)]>
              (<["Port" := VStr "COM1"]>
                 (<["Program" := VStr "Err"]>
                    (<["Bin File" := VStr "Available"]> ∅)))),
       s')
    /\ mcu_connect_status s' = false
    /\ log (isp_serial s')
       = concat (replicate (Z.to_nat (ceil_div 1000 10)) silent_attempt).
Proof.
  apply (mcuLoadSoftware_silent_device 101 [x01; x02; x03] "COM1" true true 1000).
  vm_compute. lia.
Defined.

Lemma main_loop_silent_device o k :
  forall fuel tc d s,
    mcu_connect_status s = false ->
    rx (isp_serial s) = [] ->
    Z.to_nat (ceil_div (mcu_connection_timeout o - tc) 10) = k ->
    (k < fuel)%nat ->
    exists s',
      main_loop fuel o tc d s = (Ret d, s')
      /\ mcu_connect_status s' = false
      /\ log (isp_serial s')
         = log (isp_serial s) ++ concat (replicate k silent_attempt).
Proof.
  induction k as [|k IH]; intros fuel tc d s Hc Hrx Hk Hfuel;
    (destruct fuel as [|fuel]; [lia|]); cbn [main_loop].
  - destruct (Z.ltb_spec tc (mcu_connection_timeout o)) as [Hlt|Hge].
    + pose proof (ceil_div_10_ge (mcu_connection_timeout o - tc) ltac:(lia)). lia.
    + exists s. cbn [replicate concat]. rewrite app_nil_r. repeat split.
      exact Hc.
  - destruct (Z.ltb_spec tc (mcu_connection_timeout o)) as [Hlt|Hge].
    + destruct (connectMCU_silent s Hc Hrx) as (Hrun & Hc1 & Hrx1 & Hlog1).
      unfold main_body.
      rewrite bind_assoc, (bind_run _ _ _ _ _ Hrun). cbn [truthy].
      rewrite bind_ret.
      destruct (IH fuel (tc + 10) d (connect_attempted 10 false s)
                  Hc1 Hrx1) as (s' & Hloop & Hc' & Hlog').
      { rewrite (ceil_div_10_pos (mcu_connection_timeout o - tc)) in Hk by lia.
        replace (mcu_connection_timeout o - (tc + 10))
          with (mcu_connection_timeout o - tc - 10) by lia. lia. }
      { lia. }
      exists s'. split; [exact Hloop|]. split; [exact Hc'|].
      rewrite Hlog', Hlog1. cbn [replicate concat].
      rewrite <- app_assoc. reflexivity.
    + pose proof (ceil_div_10_nonpos (mcu_connection_timeout o - tc) ltac:(lia)).
      lia.
Qed.

(** X20: on a device that never answers, the loop of [main] ends: no
    connect succeeds, so the counter is never put back, and after exactly
    ceil(budget / 10) connection attempts [main] is left with a
    dictionary that still says Timeout: Timeout, for every choice of
    switches. *)
Theorem main_silent_device (fuel : nat) (o : options) :
  (Z.to_nat (ceil_div (mcu_connection_timeout o) 10) < fuel)%nat ->
  exists s',
    main fuel o []
    = (Ret (<["Timeout" := VStr "Timeout"]>
              (<["Port" := VStr (serial_port o)]>
                 (<["Bin File" := VStr "Available"]> ∅))),
       s')
    /\ mcu_connect_status s' = false
    /\ log (isp_serial s')
       = concat (replicate (Z.to_nat (ceil_div (mcu_connection_timeout o) 10))
                   silent_attempt).
Proof.
  intros Hfuel. unfold main.
  apply (main_loop_silent_device o
           (Z.to_nat (ceil_div (mcu_connection_timeout o) 10)) fuel 0 _
           (ISPLoader_init []));
    try reflexivity; try assumption.
  rewrite Z.sub_0_r. reflexivity.
Qed.

(** Witness for [main_silent_device]: the default switches. *)
Lemma main_silent_device_witness :
  exists s',
    main 101 default_options []
    = (Ret (<["Timeout" := VStr "Timeout"]>
              (<["Port" := VStr (serial_port default_options)]>
                 (<["Bin File" := VStr "Available"]> ∅))),
       s')
    /\ mcu_connect_status s' = false
    /\ log (isp_serial s')
       = concat (replicate
                   (Z.to_nat (ceil_div (mcu_connection_timeout default_options) 10))
                   silent_attempt).
Proof.
  apply (main_silent_device 101 default_options). vm_compute. lia.
Defined.

(** ** The number of passes of [mcuLoadSoftware] *)

(** Above 64 the fuel of an upload has no part in its result. *)
Lemma writeBinaryMCU_fuel f1 f2 file_content s :
  (64 <= f1)%nat -> (64 <= f2)%nat ->
  writeBinaryMCU f1 file_content s = writeBinaryMCU f2 file_content s.
Proof.
  intros H1 H2.
  destruct (writeBinaryMCU_run f1 file_content s H1) as (s1 & Hl1 & ->).
  destruct (writeBinaryMCU_run f2 file_content s H2) as (s2 & Hl2 & ->).
  rewrite Hl1 in Hl2. injection Hl2 as <-. reflexivity.
Qed.

Lemma mcuLoadSoftware_body_fuel f1 f2 bf reset erase d s :
  (64 <= f1)%nat -> (64 <= f2)%nat ->
  mcuLoadSoftware_body f1 bf reset erase d s
  = mcuLoadSoftware_body f2 bf reset erase d s.
Proof.
  intros H1 H2. unfold mcuLoadSoftware_body.
  apply bind_ext. intros c s1. destruct (truthy c); [|reflexivity].
  apply bind_ext. intros y s2. destruct (truthy y); [|reflexivity].
  apply bind_ext. intros [e d'] s3.
  apply bind_ext. intros y2 s4. destruct (truthy y2); [|reflexivity].
  unfold bind at 1 3.
  rewrite (writeBinaryMCU_fuel f1 f2 bf s4 H1 H2). reflexivity.
Qed.

(** The counted loop and the loop of the embedding agree wherever the
    counted one returns. *)
Lemma mcuLoadSoftware_passes_loop bf reset budget f :
  (64 <= f)%nat ->
  forall passes fuel erase tc d s d' s',
    (passes + 63 <= fuel)%nat ->
    mcuLoadSoftware_passes passes f bf reset budget erase tc d s = (Ret d', s') ->
    mcuLoadSoftware_loop fuel bf reset budget erase tc d s = (Ret d', s').
Proof.
  intros Hf. induction passes as [|p IH]; intros fuel erase tc d s d' s' Hfuel Hrun.
  - discriminate Hrun.
  - destruct fuel as [|fuel]; [lia|].
    cbn [mcuLoadSoftware_passes] in Hrun. cbn [mcuLoadSoftware_loop].
    destruct (tc <? budget); [|exact Hrun].
    unfold bind in Hrun |- *.
    rewrite (mcuLoadSoftware_body_fuel (S fuel) f) by lia.
    destruct (mcuLoadSoftware_body f bf reset erase d s) as [[[[broke e1] d1]| |] s1];
      try discriminate Hrun.
    destruct broke; [exact Hrun|].
    apply IH; [lia|exact Hrun].
Qed.

Lemma mcuLoadSoftware_passes_returns bf reset budget f n :
  (64 <= f)%nat ->
  forall erase tc d s,
    budget - tc <= 10 * Z.of_nat n ->
    exists d' s',
      mcuLoadSoftware_passes (S n) f bf reset budget erase tc d s = (Ret d', s').
Proof.
  intros Hf. induction n as [|n IH]; intros erase tc d s Hbudget;
    cbn [mcuLoadSoftware_passes];
    destruct (Z.ltb_spec tc budget) as [Hlt|Hge]; try lia;
    try (eexists _, _; reflexivity).
  destruct (mcuLoadSoftware_body_returns f bf reset erase d s Hf)
    as ([[broke e'] d'] & s1 & Hbody).
  rewrite (bind_run _ _ _ _ _ Hbody).
  destruct broke; [eexists _, _; reflexivity|].
  apply IH; lia.
Qed.

(** X18: once the port is open and the firmware file read, [mcuLoadSoftware]
    returns its dictionary after at most [n] passes through the body of its
    loop whenever the budget is at most [10 * n], whatever the device
    answers: the loop cut off after [n] passes and one more test already
    returns, and [mcuLoadSoftware] returns the same dictionary and leaves
    the same loader. *)
Theorem mcuLoadSoftware_pass_bound (fuel : nat) (bf : bytes) (port : string)
    (erase reset : bool) (budget : Z) (answers : list bytes) (n : nat) :
  budget <= 10 * Z.of_nat n ->
  (64 <= fuel)%nat ->
  exists d s',
    mcuLoadSoftware_passes (S n) fuel bf reset budget erase 0
      (<["Timeout" := VStr (str budget)]>
         (<["Port" := VStr port]>
            (<["Program" := VStr "Err"]>
               (<["Bin File" := VStr "Available"]> ∅))))
      (ISPLoader_init answers) = (Ret d, s')
    /\ forall fuel',
         (n + 64 <= fuel')%nat ->
         mcuLoadSoftware fuel' bf port erase reset budget answers = (Ret d, s').
Proof.
  intros Hbudget Hfuel.
  destruct (mcuLoadSoftware_passes_returns bf reset budget fuel n Hfuel erase 0
              (<["Timeout" := VStr (str budget)]>
                 (<["Port" := VStr port]>
                    (<["Program" := VStr "Err"]>
                       (<["Bin File" := VStr "Available"]> ∅))))
              (ISPLoader_init answers) ltac:(lia)) as (d & s' & Hrun).
  exists d, s'. split; [exact Hrun|].
  intros fuel' Hfuel'. unfold mcuLoadSoftware.
  apply (mcuLoadSoftware_passes_loop bf reset budget fuel Hfuel (S n)); [lia|exact Hrun].
Qed.

(** Witness for [mcuLoadSoftware_pass_bound]: a budget of 1000 and a device
    that gives the sample dialogue. *)
Lemma mcuLoadSoftware_pass_bound_witness :
  exists d s',
    mcuLoadSoftware_passes 101 64 [x01; x02; x03] true 1000 true 0
      (<["Timeout" := VStr (str 1000)]>
         (<["Port" := VStr "COM1"]>
            (<["Program" := VStr "Err"]>
               (<["Bin File" := VStr "Available"]> ∅))))
      (ISPLoader_init [ans_connect; ans_sync]) = (Ret d, s')
    /\ forall fuel',
         (100 + 64 <= fuel')%nat ->
         mcuLoadSoftware fuel' [x01; x02; x03] "COM1" true true 1000
           [ans_connect; ans_sync] = (Ret d, s').
Proof.
  apply (mcuLoadSoftware_pass_bound 64 [x01; x02; x03] "COM1" true true 1000
           [ans_connect; ans_sync] 100); lia.
Defined.

(** X21: once the session is connected and the device has fallen silent,
    the loop of [main] cannot end for any budget above 10: each pass finds
    [connectMCU] true without any I/O, puts [timeout_counter] back to 0
    and fails in [syncMCU]; whatever the number of passes allowed, the
    loop is still running. *)
Theorem main_never_ends_once_connected (fuel : nat) (o : options) (tc : Z)
    (d : gmap string pyval) (s : ISPLoader) :
  10 < mcu_connection_timeout o ->
  tc < mcu_connection_timeout o ->
  mcu_connect_status s = true ->
  rx (isp_serial s) = [] ->
  fst (main_loop fuel o tc d s) = OutOfFuel.
Proof.
  intros Hbudget Htc Hc Hrx.
  destruct fuel as [|fuel]; [reflexivity|].
  cbn [main_loop].
  destruct (Z.ltb_spec tc (mcu_connection_timeout o)) as [_|Hge]; [|lia].
  rewrite (bind_run _ _ _ _ _ (main_body_silent (S fuel) o tc d s Hc Hrx)).
  cbv iota. apply main_loop_silent; try assumption; try lia.
  all: first [exact Hc | unfold synced; proj; rewrite Hrx; reflexivity].
Qed.

(** Witness for [main_never_ends_once_connected]: the default switches, a
    connected session and a silent device, 1000 passes allowed. *)
Lemma main_never_ends_once_connected_witness :
  fst (main_loop 1000 default_options 0 ∅ silent_session) = OutOfFuel.
Proof.
  apply (main_never_ends_once_connected 1000 default_options 0 ∅ silent_session);
    try reflexivity; cbn; lia.
Defined.

(** X22: after reset, run-APROM or run-LDROM on a connected session, every
    further command other than connect returns [False] without touching
    the port or the session: the loader has to connect again first. *)
Theorem commands_after_leaving (c c2 : command) (s : ISPLoader) :
  leaves_isp c = true ->
  c2 <> CmdConnect ->
  mcu_connect_status s = true ->
  run_command c2 (snd (run_command c s))
  = (Ret PyFalse, snd (run_command c s)).
Proof.
  intros Hl Hn Hc. apply command_disconnected; [exact Hn|].
  destruct c; try discriminate Hl; open_plain Hc; reflexivity.
Qed.

(** Witness for [commands_after_leaving]: read-device-id after run-APROM. *)
Lemma commands_after_leaving_witness :
  run_command CmdReadDeviceID (snd (run_command CmdRunAPROM synced_session))
  = (Ret PyFalse, snd (run_command CmdRunAPROM synced_session)).
Proof.
  apply (commands_after_leaving CmdRunAPROM CmdReadDeviceID synced_session);
    [reflexivity|discriminate|reflexivity].
Defined.
